(** * Access control and booking core of the hospital-management backend

    A shallow embedding of [hms_app/models.py], [hms_app/views.py] and
    [hms_app/permissions.py].

    - A model class is a record in a module of the same name; a table is the
      list of its rows; foreign keys hold the primary key of the row they
      point to, as the database does.
    - The database is an explicit [Store] passed to every view.  A view that
      writes returns the new store next to its response.
    - Python exceptions are the [Raise] case of [result].  An exception that
      a view does not catch leaves the view; no view of this file writes
      before a statement that can raise, so a raised exception leaves the
      store as it was.
    - Dates, times of day and timestamps are integers; the clock value that
      [auto_now] and [auto_now_add] read is the argument [now].
    - A queryset is the list of selected rows in table order; the [ordering]
      of [Meta] is not modelled, the statements below are about membership. *)

From Stdlib Require Import List ZArith String Bool Lia.
Import ListNotations.

Local Open Scope string_scope.
Local Open Scope list_scope.
Local Open Scope Z_scope.

(** ** Exceptions and the error monad *)

Inductive Model : Type :=
| MUser | MUserProfile | MDoctor | MDoctorAvailability | MAppointment
| MMedicalReport.

Inductive exn : Type :=
| DoesNotExist (m : Model)
| MultipleObjectsReturned (m : Model)
| IntegrityError (m : Model)
| NotFound (detail : string)          (* rest_framework.exceptions.NotFound *)
| Http404.                            (* raised by get_object *)

Inductive result (A : Type) : Type :=
| Ok (a : A)
| Raise (e : exn).

Arguments Ok {A} a.
Arguments Raise {A} e.

Definition bind {A B : Type} (c : result A) (k : A -> result B) : result B :=
  match c with
  | Ok a => k a
  | Raise e => Raise e
  end.

Notation "x <- c ;; k" := (bind c (fun x => k))
  (at level 61, c at next level, right associativity).

(** [try: c except h]: the handler [h] names the exceptions it catches. *)
Definition try_except {A : Type} (c : result A) (h : exn -> option (result A))
  : result A :=
  match c with
  | Ok a => Ok a
  | Raise e => match h e with
               | Some r => r
               | None => Raise e
               end
  end.

(** ** models.py *)

Module User.
Record t : Type := mk { id : Z; username : string }.
End User.

Module UserProfile.
Record t : Type := mk {
  user : Z;                         (* OneToOneField(User) *)
  role : string;
  phone_number : option string }.
End UserProfile.

Module Doctor.
Record t : Type := mk {
  id : Z;
  user : Z;                         (* OneToOneField(User) *)
  specialization : string;
  license_number : string;
  experience_years : Z;
  is_available : bool }.
End Doctor.

Module DoctorAvailability.
Record t : Type := mk {
  id : Z;
  doctor : Z;                       (* ForeignKey(Doctor) *)
  day_of_week : string;
  start_time : Z;
  end_time : Z;
  is_active : bool }.

(** [unique_together = ['doctor', 'day_of_week', 'start_time', 'end_time']] *)
Definition same_key (a b : t) : bool :=
  (doctor a =? doctor b) && String.eqb (day_of_week a) (day_of_week b)
  && (start_time a =? start_time b) && (end_time a =? end_time b).
End DoctorAvailability.

Module Appointment.
Record t : Type := mk {
  id : Z;
  doctor : Z;                       (* ForeignKey(Doctor) *)
  patient : Z;                      (* ForeignKey(User) *)
  appointment_date : Z;
  start_time : Z;
  end_time : Z;
  reason : string;
  status : string;
  notes : option string;
  created_at : Z;                   (* auto_now_add *)
  updated_at : Z }.                 (* auto_now *)

Definition set_status (v : string) (a : t) : t :=
  mk (id a) (doctor a) (patient a) (appointment_date a) (start_time a)
     (end_time a) (reason a) v (notes a) (created_at a) (updated_at a).

Definition set_updated_at (v : Z) (a : t) : t :=
  mk (id a) (doctor a) (patient a) (appointment_date a) (start_time a)
     (end_time a) (reason a) (status a) (notes a) (created_at a) v.

(** [unique_together = ['doctor', 'appointment_date', 'start_time']] *)
Definition key (a : t) : Z * Z * Z :=
  (doctor a, appointment_date a, start_time a).

Definition same_key (a b : t) : bool :=
  (doctor a =? doctor b) && (appointment_date a =? appointment_date b)
  && (start_time a =? start_time b).
End Appointment.

Module MedicalReport.
(** Modelled from the spec: the [MedicalReport] model class is imported by
    views.py but is not in models.py.  The spec's data model gives it a
    nullable doctor, a patient and a content; the views use [patient]. *)
Record t : Type := mk {
  id : Z;
  doctor : option Z;                (* nullable ForeignKey(Doctor) *)
  patient : Z;                      (* ForeignKey(User) *)
  content : string }.
End MedicalReport.

(** ** The database *)

Record Store : Type := mkStore {
  users : list User.t;
  profiles : list UserProfile.t;
  doctors : list Doctor.t;
  availability : list DoctorAvailability.t;
  appointments : list Appointment.t;
  reports : list MedicalReport.t }.

Definition set_availability (v : list DoctorAvailability.t) (s : Store) :=
  mkStore (users s) (profiles s) (doctors s) v (appointments s) (reports s).

Definition set_appointments (v : list Appointment.t) (s : Store) :=
  mkStore (users s) (profiles s) (doctors s) (availability s) v (reports s).

Definition set_reports (v : list MedicalReport.t) (s : Store) :=
  mkStore (users s) (profiles s) (doctors s) (availability s) (appointments s) v.

Definition set_profiles (v : list UserProfile.t) (s : Store) :=
  mkStore (users s) v (doctors s) (availability s) (appointments s) (reports s).

(** ** The ORM calls the views make *)

(** [Manager.get] with keyword conditions: the one row that matches. *)
Definition objects_get {A : Type} (m : Model) (cond : A -> bool)
  (table : list A) : result A :=
  match filter cond table with
  | [] => Raise (DoesNotExist m)
  | [x] => Ok x
  | _ :: _ :: _ => Raise (MultipleObjectsReturned m)
  end.

(** The next value of an auto-increment primary key. *)
Definition next_pk (ids : list Z) : Z := 1 + fold_right Z.max 0 ids.

(** What the database itself guarantees: primary keys and one-to-one columns
    do not repeat, the [unique_together] columns of [Appointment] do not
    repeat, and the doctor of an appointment is a row of [Doctor]. *)
Record db_constraints (s : Store) : Prop := mk_db_constraints {
  users_pk : NoDup (map User.id (users s));
  profiles_user : NoDup (map UserProfile.user (profiles s));
  doctors_pk : NoDup (map Doctor.id (doctors s));
  doctors_user : NoDup (map Doctor.user (doctors s));
  appointments_pk : NoDup (map Appointment.id (appointments s));
  appointments_unique : NoDup (map Appointment.key (appointments s));
  appointments_doctor :                 (* the foreign key to Doctor *)
    forall a, In a (appointments s) ->
      exists d, In d (doctors s) /\ Doctor.id d = Appointment.doctor a }.

(** [Model.objects.create] and [Model.save] on [Appointment]: the INSERT and
    the UPDATE by primary key, each refused with [IntegrityError] when
    another row has the same [unique_together] columns. *)
Definition Appointment_insert (a : Appointment.t)
  (table : list Appointment.t) : result (list Appointment.t) :=
  if existsb (Appointment.same_key a) table
  then Raise (IntegrityError MAppointment)
  else Ok (table ++ [a]).

Definition Appointment_update (a : Appointment.t)
  (table : list Appointment.t) : result (list Appointment.t) :=
  if existsb (fun b => Appointment.same_key a b
                       && negb (Appointment.id b =? Appointment.id a)) table
  then Raise (IntegrityError MAppointment)
  else Ok (map (fun b => if Appointment.id b =? Appointment.id a
                         then a else b) table).

Definition DoctorAvailability_insert (a : DoctorAvailability.t)
  (table : list DoctorAvailability.t) : result (list DoctorAvailability.t) :=
  if existsb (DoctorAvailability.same_key a) table
  then Raise (IntegrityError MDoctorAvailability)
  else Ok (table ++ [a]).

Definition DoctorAvailability_update (a : DoctorAvailability.t)
  (table : list DoctorAvailability.t) : result (list DoctorAvailability.t) :=
  if existsb (fun b => DoctorAvailability.same_key a b
                       && negb (DoctorAvailability.id b
                                =? DoctorAvailability.id a)) table
  then Raise (IntegrityError MDoctorAvailability)
  else Ok (map (fun b => if DoctorAvailability.id b
                            =? DoctorAvailability.id a
                         then a else b) table).

(** ** What the framework does around a view *)

Inductive Body : Type :=
| Error (msg : string)                          (* {'error': msg} *)
| AppointmentData (a : Appointment.t)
| ReportList (l : list MedicalReport.t).

Record Response : Type := mkResponse { status_code : Z; data : Body }.

Definition HTTP_200_OK := 200.
Definition HTTP_201_CREATED := 201.
Definition HTTP_400_BAD_REQUEST := 400.
Definition HTTP_403_FORBIDDEN := 403.
Definition HTTP_404_NOT_FOUND := 404.

(** [GenericAPIView.get_object]: the row of the view's queryset whose
    primary key is [pk], and [Http404] when the queryset has none.  The
    object permission of [IsAuthenticated] allows every row. *)
Definition get_object {A : Type} (m : Model) (pk_of : A -> Z)
  (queryset : result (list A)) (pk : Z) : result A :=
  qs <- queryset ;;
  try_except (objects_get m (fun r => pk_of r =? pk) qs)
    (fun e => match e with
              | DoesNotExist _ => Some (Raise Http404)
              | _ => None
              end).

(** The status the client sees: the framework's exception handler answers
    [NotFound] and [Http404] with 404, any other exception is a server
    error. *)
Definition http_status {A : Type} (status_of : A -> Z) (r : result A) : Z :=
  match r with
  | Ok a => status_of a
  | Raise (NotFound _) => HTTP_404_NOT_FOUND
  | Raise Http404 => HTTP_404_NOT_FOUND
  | Raise _ => 500
  end.

(** The payloads of the views that answer with something else than an
    appointment or a report list.  A serialized doctor or profile is the row
    itself. *)
Inductive Data : Type :=
| ErrorData (msg : string)                      (* {'error': msg} *)
| DoctorData (d : Doctor.t)
| SlotList (l : list DoctorAvailability.t)
| LoginData (user_id : Z) (username : string) (role : string)
| ProfileData (p : UserProfile.t).

Record Reply : Type := mkReply { reply_status : Z; reply_data : Data }.

Definition HTTP_401_UNAUTHORIZED := 401.

(** ** views.py *)

Module DoctorViewSet.

Definition get_queryset (s : Store) (user : User.t)
  : result (list Doctor.t) :=
  try_except
    (profile <- objects_get MUserProfile
                  (fun p => UserProfile.user p =? User.id user)
                  (profiles s) ;;
     if String.eqb (UserProfile.role profile) "doctor"
     then Ok (filter (fun d => Doctor.user d =? User.id user) (doctors s))
     else Ok (filter (fun d => Bool.eqb (Doctor.is_available d) true)
                     (doctors s)))
    (fun e => match e with
              | DoesNotExist MUserProfile => Some (Ok [])
              | _ => None
              end).

Definition my_profile (s : Store) (user : User.t) : result Reply :=
  match objects_get MDoctor (fun d => Doctor.user d =? User.id user)
          (doctors s) with
  | Ok doctor => Ok (mkReply HTTP_200_OK (DoctorData doctor))
  | Raise (DoesNotExist MDoctor) =>
      Ok (mkReply HTTP_404_NOT_FOUND (ErrorData "Doctor profile not found"))
  | Raise e => Raise e
  end.

Definition available_slots (s : Store) (user : User.t) (pk : Z)
  : result Reply :=
  doctor <- get_object MDoctor Doctor.id (get_queryset s user) pk ;;
  Ok (mkReply HTTP_200_OK
        (SlotList
           (filter (fun a => (DoctorAvailability.doctor a =? Doctor.id doctor)
                             && Bool.eqb (DoctorAvailability.is_active a)
                                  true)
                   (availability s)))).

End DoctorViewSet.

Module DoctorAvailabilityViewSet.

Definition get_queryset (s : Store) (user : User.t)
  : result (list DoctorAvailability.t) :=
  try_except
    (doctor <- objects_get MDoctor
                 (fun d => Doctor.user d =? User.id user) (doctors s) ;;
     Ok (filter (fun a => DoctorAvailability.doctor a =? Doctor.id doctor)
                (availability s)))
    (fun e => match e with
              | DoesNotExist MDoctor => Some (Ok [])
              | _ => None
              end).

(** [serializer.validated_data] of [DoctorAvailabilitySerializer]: its
    writable fields, [doctor] among them. *)
Record validated_data : Type := mkData {
  doctor : Z;
  day_of_week : string;
  start_time : Z;
  end_time : Z;
  is_active : bool }.

(** [serializer.save(doctor=doctor)]: the keyword replaces the validated
    field of the same name.  Without an instance the row is created. *)
Definition save_new (vd : validated_data) (doctor_kw : Z) (s : Store)
  : result Store :=
  let row := DoctorAvailability.mk
               (next_pk (map DoctorAvailability.id (availability s)))
               doctor_kw (day_of_week vd) (start_time vd) (end_time vd)
               (is_active vd) in
  table <- DoctorAvailability_insert row (availability s) ;;
  Ok (set_availability table s).

(** With an instance, its fields are overwritten and it is saved. *)
Definition save_instance (instance : DoctorAvailability.t)
  (vd : validated_data) (doctor_kw : Z) (s : Store) : result Store :=
  let row := DoctorAvailability.mk (DoctorAvailability.id instance)
               doctor_kw (day_of_week vd) (start_time vd) (end_time vd)
               (is_active vd) in
  table <- DoctorAvailability_update row (availability s) ;;
  Ok (set_availability table s).

Definition perform_create (s : Store) (user : User.t)
  (vd : validated_data) : result Store :=
  try_except
    (doctor <- objects_get MDoctor
                 (fun d => Doctor.user d =? User.id user) (doctors s) ;;
     save_new vd (Doctor.id doctor) s)
    (fun e => match e with
              | DoesNotExist MDoctor =>
                  Some (Raise (NotFound "Doctor profile not found"))
              | _ => None
              end).

Definition perform_update (s : Store) (user : User.t)
  (instance : DoctorAvailability.t) (vd : validated_data) : result Store :=
  try_except
    (doctor <- objects_get MDoctor
                 (fun d => Doctor.user d =? User.id user) (doctors s) ;;
     save_instance instance vd (Doctor.id doctor) s)
    (fun e => match e with
              | DoesNotExist MDoctor =>
                  Some (Raise (NotFound "Doctor profile not found"))
              | _ => None
              end).

(** [UpdateModelMixin.update] of the framework, for data that passed
    validation: the instance is fetched with [get_object], then handed to
    [perform_update]. *)
Definition update (s : Store) (user : User.t) (pk : Z)
  (vd : validated_data) : result Store :=
  instance <- get_object MDoctorAvailability DoctorAvailability.id
                (get_queryset s user) pk ;;
  perform_update s user instance vd.

End DoctorAvailabilityViewSet.

Module AppointmentViewSet.

Definition get_queryset (s : Store) (user : User.t)
  : result (list Appointment.t) :=
  try_except
    (profile <- objects_get MUserProfile
                  (fun p => UserProfile.user p =? User.id user)
                  (profiles s) ;;
     if String.eqb (UserProfile.role profile) "doctor"
     then
       doctor <- objects_get MDoctor
                   (fun d => Doctor.user d =? User.id user) (doctors s) ;;
       Ok (filter (fun a => Appointment.doctor a =? Doctor.id doctor)
                  (appointments s))
     else
       Ok (filter (fun a => Appointment.patient a =? User.id user)
                  (appointments s)))
    (fun e => match e with
              | DoesNotExist MUserProfile => Some (Ok [])
              | DoesNotExist MDoctor => Some (Ok [])
              | _ => None
              end).

(** [request.data] of a booking: the five keys the view reads, and a
    [patient] key that a client may send and that the view never reads. *)
Record book_data : Type := mkBook {
  doctor_id : Z;
  appointment_date : Z;
  start_time : Z;
  end_time : Z;
  reason : string;
  patient : option Z }.

Definition book_appointment (s : Store) (user : User.t) (d : book_data)
  (now : Z) : result (Response * Store) :=
  match objects_get MDoctor (fun x => Doctor.id x =? doctor_id d)
          (doctors s) with
  | Raise (DoesNotExist MDoctor) =>
      Ok (mkResponse HTTP_404_NOT_FOUND (Error "Doctor not found"), s)
  | Raise e => Raise e
  | Ok doctor =>
      if existsb
           (fun a => (Appointment.doctor a =? Doctor.id doctor)
                     && (Appointment.appointment_date a
                         =? appointment_date d)
                     && (Appointment.start_time a =? start_time d)
                     && String.eqb (Appointment.status a) "scheduled")
           (appointments s)
      then Ok (mkResponse HTTP_400_BAD_REQUEST
                 (Error "Time slot already booked"), s)
      else
        let appointment :=
          Appointment.mk (next_pk (map Appointment.id (appointments s)))
            (Doctor.id doctor) (User.id user) (appointment_date d)
            (start_time d) (end_time d) (reason d) "scheduled" None
            now now in
        table <- Appointment_insert appointment (appointments s) ;;
        Ok (mkResponse HTTP_201_CREATED (AppointmentData appointment),
            set_appointments table s)
  end.

Definition cancel_appointment (s : Store) (user : User.t) (pk : Z)
  (now : Z) : result (Response * Store) :=
  appointment <- get_object MAppointment Appointment.id
                   (get_queryset s user) pk ;;
  if negb (Appointment.patient appointment =? User.id user)
  then Ok (mkResponse HTTP_403_FORBIDDEN (Error "Unauthorized"), s)
  else
    let appointment :=
      Appointment.set_updated_at now
        (Appointment.set_status "cancelled" appointment) in
    table <- Appointment_update appointment (appointments s) ;;
    Ok (mkResponse HTTP_200_OK (AppointmentData appointment),
        set_appointments table s).

End AppointmentViewSet.

Module MedicalReportViewSet.

Definition get_queryset (s : Store) (user : User.t)
  : result (list MedicalReport.t) :=
  match objects_get MUserProfile
          (fun p => UserProfile.user p =? User.id user) (profiles s) with
  | Raise (DoesNotExist MUserProfile) => Ok []
  | Raise e => Raise e
  | Ok profile =>
      if String.eqb (UserProfile.role profile) "doctor"
      then
        try_except
          (doctor <- objects_get MDoctor
                       (fun d => Doctor.user d =? User.id user)
                       (doctors s) ;;
           let patient_ids :=
             map Appointment.patient
               (filter (fun a => Appointment.doctor a =? Doctor.id doctor)
                       (appointments s)) in
           Ok (filter (fun r => existsb (Z.eqb (MedicalReport.patient r))
                                  patient_ids)
                      (reports s)))
          (fun e => match e with
                    | DoesNotExist MDoctor => Some (Ok [])
                    | _ => None
                    end)
      else
        Ok (filter (fun r => MedicalReport.patient r =? User.id user)
                   (reports s))
  end.

(** Modelled from the spec: [MedicalReportSerializer] is imported by
    views.py but is not in serializers.py.  Its validated data is taken to
    carry the attributes that the spec's data model gives a report, foreign
    keys included, as the model serializers of serializers.py carry theirs:
    the doctor, which is nullable and is [None] when the request names
    none, the patient and the content. *)
Record validated_data : Type := mkData {
  doctor : option Z;
  patient : Z;
  content : string }.

(** [serializer.save], with the [doctor] keyword or without it
    ([doctor_kw = None]): a keyword replaces the validated field of the
    same name, and without it the validated field is saved. *)
Definition save_new (vd : validated_data) (doctor_kw : option Z)
  (s : Store) : result Store :=
  let row := MedicalReport.mk
               (next_pk (map MedicalReport.id (reports s)))
               (match doctor_kw with
                | Some d => Some d
                | None => doctor vd
                end)
               (patient vd) (content vd) in
  Ok (set_reports (reports s ++ [row]) s).

Definition perform_create (s : Store) (user : User.t)
  (vd : validated_data) : result Store :=
  try_except
    (doctor <- objects_get MDoctor
                 (fun d => Doctor.user d =? User.id user) (doctors s) ;;
     save_new vd (Some (Doctor.id doctor)) s)
    (fun e => match e with
              | DoesNotExist MDoctor => Some (save_new vd None s)
              | _ => None
              end).

(** [patient_id] is the query parameter: [None] when it is absent or
    empty, its integer value otherwise. *)
Definition list (s : Store) (user : User.t) (patient_id : option Z)
  : result Response :=
  qs <- get_queryset s user ;;
  match patient_id with
  | None => Ok (mkResponse HTTP_200_OK (ReportList qs))
  | Some pid =>
      match objects_get MUser (fun u => User.id u =? pid) (users s) with
      | Raise (DoesNotExist MUser) =>
          Ok (mkResponse HTTP_404_NOT_FOUND (Error "Patient not found"))
      | Raise e => Raise e
      | Ok patient =>
          match objects_get MUserProfile
                  (fun p => UserProfile.user p =? User.id user)
                  (profiles s) with
          | Raise (DoesNotExist MUserProfile) =>
              Ok (mkResponse HTTP_403_FORBIDDEN (Error "Unauthorized"))
          | Raise e => Raise e
          | Ok profile =>
              let filtered :=
                Ok (mkResponse HTTP_200_OK
                      (ReportList
                         (filter (fun r => MedicalReport.patient r
                                           =? User.id patient) qs))) in
              if String.eqb (UserProfile.role profile) "doctor"
              then
                match objects_get MDoctor
                        (fun d => Doctor.user d =? User.id user)
                        (doctors s) with
                | Raise (DoesNotExist MDoctor) =>
                    Ok (mkResponse HTTP_404_NOT_FOUND
                          (Error "Doctor profile not found"))
                | Raise e => Raise e
                | Ok doctor =>
                    if negb (existsb
                               (fun a => (Appointment.doctor a
                                          =? Doctor.id doctor)
                                         && (Appointment.patient a
                                             =? User.id patient))
                               (appointments s))
                    then Ok (mkResponse HTTP_403_FORBIDDEN
                               (Error "No access to this patient"))
                    else filtered
                end
              else
                if negb (User.id user =? pid)
                then Ok (mkResponse HTTP_403_FORBIDDEN
                           (Error "Unauthorized"))
                else filtered
          end
      end
  end.

End MedicalReportViewSet.

Module SignUpView.

(** [auth] is what the framework's [authenticate(username, password)]
    returned.  The session that [login(request, user)] opens is the
    framework's.  The e-mail of the payload is left out: [User.t] has no
    such column. *)
Definition login (s : Store) (auth : option User.t)
  : result (Reply * Store) :=
  match auth with
  | Some user =>
      (* UserProfile.objects.get_or_create(user=user, defaults=...) *)
      profile_s <-
        match objects_get MUserProfile
                (fun p => UserProfile.user p =? User.id user)
                (profiles s) with
        | Ok profile => Ok (profile, s)
        | Raise (DoesNotExist MUserProfile) =>
            let profile := UserProfile.mk (User.id user) "patient"
                             (Some "") in
            Ok (profile, set_profiles (profiles s ++ [profile]) s)
        | Raise e => Raise e
        end ;;
      Ok (mkReply HTTP_200_OK
            (LoginData (User.id user) (User.username user)
               (UserProfile.role (fst profile_s))),
          snd profile_s)
  | None =>
      Ok (mkReply HTTP_401_UNAUTHORIZED
            (ErrorData "Invalid username or password"), s)
  end.

(** [request_user] is [None] for an anonymous request. *)
Definition current_user (s : Store) (request_user : option User.t)
  : result Reply :=
  match request_user with
  | None => Ok (mkReply HTTP_401_UNAUTHORIZED (ErrorData "Not authenticated"))
  | Some user =>
      match objects_get MUserProfile
              (fun p => UserProfile.user p =? User.id user) (profiles s) with
      | Ok profile => Ok (mkReply HTTP_200_OK (ProfileData profile))
      | Raise (DoesNotExist MUserProfile) =>
          Ok (mkReply HTTP_404_NOT_FOUND (ErrorData "UserProfile not found"))
      | Raise e => Raise e
      end
  end.

End SignUpView.

(** ** permissions.py *)

(** [rest_framework.permissions.SAFE_METHODS] *)
Definition SAFE_METHODS : list string := ["GET"; "HEAD"; "OPTIONS"].

Definition method_in (method : string) (l : list string) : bool :=
  existsb (String.eqb method) l.

Module IsDoctorOrReadOnly.
Definition has_object_permission (s : Store) (method : string)
  (user : User.t) : result bool :=
  if method_in method SAFE_METHODS then Ok true
  else
    try_except
      (profile <- objects_get MUserProfile
                    (fun p => UserProfile.user p =? User.id user)
                    (profiles s) ;;
       Ok (String.eqb (UserProfile.role profile) "doctor"))
      (fun e => match e with
                | DoesNotExist MUserProfile => Some (Ok false)
                | _ => None
                end).
End IsDoctorOrReadOnly.

Module IsPatientOrReadOnly.
Definition has_object_permission (s : Store) (method : string)
  (user : User.t) : result bool :=
  if method_in method SAFE_METHODS then Ok true
  else
    try_except
      (profile <- objects_get MUserProfile
                    (fun p => UserProfile.user p =? User.id user)
                    (profiles s) ;;
       Ok (String.eqb (UserProfile.role profile) "patient"))
      (fun e => match e with
                | DoesNotExist MUserProfile => Some (Ok false)
                | _ => None
                end).
End IsPatientOrReadOnly.

Module IsOwnerOrReadOnly.
(** [obj_user] is the [user] column of the object. *)
Definition has_object_permission (method : string) (user : User.t)
  (obj_user : Z) : bool :=
  if method_in method SAFE_METHODS then true
  else obj_user =? User.id user.
End IsOwnerOrReadOnly.

(** ** Vocabulary of the statements *)

(** A listing returns exactly the rows of [table] that satisfy [P]. *)
Definition lists_exactly {A : Type} (r : result (list A)) (table : list A)
  (P : A -> Prop) : Prop :=
  exists qs, r = Ok qs /\ forall x, In x qs <-> In x table /\ P x.


(** The actor shares an appointment with the patient [pid]: the actor has a
    Doctor record and some appointment, of whatever status, joins it to
    [pid]. *)
Definition shares_appointment (s : Store) (user : User.t) (pid : Z) : Prop :=
  exists d a, In d (doctors s) /\ Doctor.user d = User.id user /\
              In a (appointments s) /\
              Appointment.doctor a = Doctor.id d /\
              Appointment.patient a = pid.

Definition has_role (s : Store) (user : User.t) (r : string) : Prop :=
  exists p, In p (profiles s) /\ UserProfile.user p = User.id user /\
            UserProfile.role p = r.

Definition has_profile (s : Store) (user : User.t) : Prop :=
  exists p, In p (profiles s) /\ UserProfile.user p = User.id user.

Definition has_doctor_record (s : Store) (user : User.t) : Prop :=
  exists d, In d (doctors s) /\ Doctor.user d = User.id user.

(** The [patient_id] filter of the report list is granted: [pid] names a
    user, and the actor either has a role other than 'doctor' and is that
    user, or has the role 'doctor' and shares an appointment with [pid]. *)
Definition filter_granted (s : Store) (user : User.t) (pid : Z) : Prop :=
  (exists u, In u (users s) /\ User.id u = pid) /\
  ((exists r, has_role s user r /\ r <> "doctor" /\ User.id user = pid)
   \/ (has_role s user "doctor" /\ shares_appointment s user pid)).

(** The status code the client sees, and the store a view leaves behind
    when it was started on [s]. *)
Definition status_of (r : result (Response * Store)) : Z :=
  http_status (fun x => status_code (fst x)) r.

Definition store_after (s : Store) (r : result (Response * Store)) : Store :=
  match r with
  | Ok (_, s') => s'
  | Raise _ => s
  end.

(** The columns of an appointment that no cancel may touch. *)
Definition booking_columns (a : Appointment.t)
  : Z * Z * Z * Z * Z * Z * string * option string * Z :=
  (Appointment.id a, Appointment.doctor a, Appointment.patient a,
   Appointment.appointment_date a, Appointment.start_time a,
   Appointment.end_time a, Appointment.reason a, Appointment.notes a,
   Appointment.created_at a).

(** What the report views read of an appointment: who treats whom. *)
Definition care_link (a : Appointment.t) : Z * Z :=
  (Appointment.doctor a, Appointment.patient a).

(** The primary key of the availability table does not repeat. *)
Definition availability_pk (s : Store) : Prop :=
  NoDup (map DoctorAvailability.id (availability s)).

(** Requests as they reach the booking, cancel and login views, and the
    store a sequence of them leaves: a request that raises writes nothing. *)
Inductive request : Type :=
| Book (user : User.t) (d : AppointmentViewSet.book_data) (now : Z)
| Cancel (user : User.t) (pk : Z) (now : Z)
| Login (auth : option User.t).

Definition written {A : Type} (s : Store) (r : result (A * Store)) : Store :=
  match r with
  | Ok (_, s') => s'
  | Raise _ => s
  end.

Definition handle (s : Store) (q : request) : Store :=
  match q with
  | Book user d now =>
      written s (AppointmentViewSet.book_appointment s user d now)
  | Cancel user pk now =>
      written s (AppointmentViewSet.cancel_appointment s user pk now)
  | Login auth => written s (SignUpView.login s auth)
  end.

Definition serve (s : Store) (qs : list request) : Store :=
  fold_left handle qs s.

(** Every appointment of [s] is still in [s'], under the same primary key
    and with the same doctor, patient, date, times, reason, notes and
    creation time; if it was cancelled it still is. *)
Definition ledger_kept (s s' : Store) : Prop :=
  forall a, In a (appointments s) ->
    exists a', In a' (appointments s') /\
      booking_columns a' = booking_columns a /\
      (Appointment.status a = "cancelled" ->
       Appointment.status a' = "cancelled").

(** ** A small hospital for the examples *)

Module Ward.

Definition alice := User.mk 1 "alice".      (* doctor, Doctor record 10 *)
Definition bob := User.mk 2 "bob".          (* patient *)
Definition carol := User.mk 3 "carol".      (* patient *)
Definition dave := User.mk 4 "dave".        (* no profile *)
Definition erin := User.mk 5 "erin".        (* role doctor, no Doctor record *)
Definition frank := User.mk 6 "frank".      (* doctor, Doctor record 11 *)

Definition the_profiles : list UserProfile.t :=
  [ UserProfile.mk 1 "doctor" None; UserProfile.mk 2 "patient" None;
    UserProfile.mk 3 "patient" None; UserProfile.mk 5 "doctor" None;
    UserProfile.mk 6 "doctor" None ].

Definition dr_alice := Doctor.mk 10 1 "Cardiology" "LIC-10" 12 true.
Definition dr_frank := Doctor.mk 11 6 "General Practitioner" "LIC-11" 3 false.

(** 2024-01-10 as a day number, 09:00 and 09:30 as seconds of the day. *)
Definition jan10 : Z := 19732.
Definition t0900 : Z := 32400.
Definition t0930 : Z := 34200.

Definition visit_of (who : Z) (st : string) : Appointment.t :=
  Appointment.mk 100 10 who jan10 t0900 t0930 "checkup" st None 1000 1000.

Definition visit := visit_of 2.

Definition report_bob := MedicalReport.mk 1 (Some 10) 2 "ECG normal".
Definition report_carol := MedicalReport.mk 2 None 3 "Blood panel".

Definition with_appointments (l : list Appointment.t) : Store :=
  mkStore [alice; bob; carol; dave; erin; frank] the_profiles
    [dr_alice; dr_frank] [] l [report_bob; report_carol].

(** No appointment yet; the visit of bob scheduled; the same cancelled. *)
Definition empty := with_appointments [].
Definition booked := with_appointments [visit "scheduled"].
Definition cancelled := with_appointments [visit "cancelled"].

(** dave, who has no profile, has booked the slot. *)
Definition walk_in := with_appointments [visit_of 4 "scheduled"].

Definition slot (who : option Z) : AppointmentViewSet.book_data :=
  AppointmentViewSet.mkBook 10 jan10 t0900 t0930 "checkup" who.

End Ward.
(** * Properties *)

(** ** [Manager.get] on a column that does not repeat *)

Section ObjectsGet.

Context {A : Type} (m : Model) (col : A -> Z).

Lemma filter_col_absent (k : Z) (table : list A) :
  (forall x, In x table -> col x <> k) ->
  filter (fun r => col r =? k) table = [].
Proof.
  induction table as [|a table IH]; intros Hno; simpl; [reflexivity|].
  destruct (Z.eqb_spec (col a) k) as [E|_].
  - exfalso. apply (Hno a); [left; reflexivity | exact E].
  - apply IH. intros x Hx. apply Hno. right. exact Hx.
Qed.

Lemma filter_col_unique (x : A) (table : list A) :
  NoDup (map col table) -> In x table ->
  filter (fun r => col r =? col x) table = [x].
Proof.
  induction table as [|a table IH]; intros Hnd Hin; [destruct Hin|].
  simpl in Hnd. inversion Hnd as [|? ? Hnotin Hnd']; subst.
  simpl. destruct Hin as [->|Hin].
  - rewrite Z.eqb_refl. f_equal. apply filter_col_absent.
    intros y Hy E. apply Hnotin. rewrite <- E. apply in_map. exact Hy.
  - destruct (Z.eqb_spec (col a) (col x)) as [E|_].
    + exfalso. apply Hnotin. rewrite E. apply in_map. exact Hin.
    + apply IH; assumption.
Qed.

Lemma objects_get_found (x : A) (k : Z) (table : list A) :
  NoDup (map col table) -> In x table -> col x = k ->
  objects_get m (fun r => col r =? k) table = Ok x.
Proof.
  intros Hnd Hin <-. unfold objects_get.
  rewrite filter_col_unique by assumption. reflexivity.
Qed.

Lemma objects_get_absent (k : Z) (table : list A) :
  (forall x, In x table -> col x <> k) ->
  objects_get m (fun r => col r =? k) table = Raise (DoesNotExist m).
Proof.
  intros Hno. unfold objects_get.
  rewrite filter_col_absent by assumption. reflexivity.
Qed.

Lemma objects_get_Ok (cond : A -> bool) (table : list A) (x : A) :
  objects_get m cond table = Ok x -> In x table /\ cond x = true.
Proof.
  unfold objects_get. intros H.
  destruct (filter cond table) as [|y [|z l]] eqn:E; try discriminate.
  injection H as ->. apply filter_In. rewrite E. left. reflexivity.
Qed.

(** A column that does not repeat has the row or has it not. *)
Lemma col_dec (k : Z) (table : list A) :
  (exists x, In x table /\ col x = k) \/
  (forall x, In x table -> col x <> k).
Proof.
  induction table as [|a table [[x [Hx E]]|Hno]].
  - right. intros x [].
  - left. exists x. split; [right; exact Hx | exact E].
  - destruct (Z.eq_dec (col a) k) as [E|N].
    + left. exists a. split; [left; reflexivity | exact E].
    + right. intros x [<-|Hx]; [exact N | apply Hno; exact Hx].
Qed.

End ObjectsGet.

Lemma lists_exactly_filter {A : Type} (f : A -> bool) (table : list A)
  (P : A -> Prop) :
  (forall x, f x = true <-> P x) ->
  lists_exactly (Ok (filter f table)) table P.
Proof.
  intros Hf. exists (filter f table). split; [reflexivity|].
  intros x. rewrite filter_In, Hf. reflexivity.
Qed.

Lemma lists_exactly_nil {A : Type} (table : list A) (P : A -> Prop) :
  (forall x, In x table -> ~ P x) ->
  lists_exactly (Ok []) table P.
Proof.
  intros Hno. exists []. split; [reflexivity|].
  intros x. split; [intros [] | intros [Hx HP]; exact (Hno x Hx HP)].
Qed.

(** The stores of the examples: solved by computation. *)
Ltac nodup_solve :=
  repeat (apply NoDup_cons; [simpl; intuition (discriminate || congruence)|]);
  apply NoDup_nil.

Lemma fk_by_computation (s : Store) :
  forallb (fun a => existsb (fun d => Doctor.id d =? Appointment.doctor a)
                      (doctors s)) (appointments s) = true ->
  forall a, In a (appointments s) ->
    exists d, In d (doctors s) /\ Doctor.id d = Appointment.doctor a.
Proof.
  intros H a Ha. rewrite forallb_forall in H. specialize (H a Ha).
  apply existsb_exists in H. destruct H as [d [Hd E]].
  exists d. split; [exact Hd | apply Z.eqb_eq; exact E].
Qed.

Ltac db_solve :=
  constructor; [nodup_solve .. | apply fk_by_computation; reflexivity].

Lemma empty_db : db_constraints Ward.empty.
Proof. db_solve. Qed.

Lemma booked_db : db_constraints Ward.booked.
Proof. db_solve. Qed.

Lemma cancelled_db : db_constraints Ward.cancelled.
Proof. db_solve. Qed.

Lemma walk_in_db : db_constraints Ward.walk_in.
Proof. db_solve. Qed.

(** ** Doctor listing *)

(** C4.  Doctor list: an actor whose profile role is 'doctor' gets exactly
    the Doctor records whose user is the actor; an actor whose role is
    'patient' gets exactly the Doctor records with [is_available = true]; an
    actor without a profile gets the empty list, and nothing is raised. *)
Theorem doctor_list_by_role (s : Store) (user : User.t) :
  db_constraints s ->
  (forall p, In p (profiles s) -> UserProfile.user p = User.id user ->
     UserProfile.role p = "doctor" ->
     lists_exactly (DoctorViewSet.get_queryset s user) (doctors s)
       (fun d => Doctor.user d = User.id user))
  /\ (forall p, In p (profiles s) -> UserProfile.user p = User.id user ->
        UserProfile.role p = "patient" ->
        lists_exactly (DoctorViewSet.get_queryset s user) (doctors s)
          (fun d => Doctor.is_available d = true))
  /\ ((forall p, In p (profiles s) -> UserProfile.user p <> User.id user) ->
      DoctorViewSet.get_queryset s user = Ok []).
Proof.
  intros Hdb. unfold DoctorViewSet.get_queryset. repeat split.
  - intros p Hin Hu Hrole.
    rewrite (objects_get_found MUserProfile UserProfile.user p)
      by (try apply Hdb; assumption).
    simpl. rewrite Hrole. simpl. apply lists_exactly_filter.
    intros d. apply Z.eqb_eq.
  - intros p Hin Hu Hrole.
    rewrite (objects_get_found MUserProfile UserProfile.user p)
      by (try apply Hdb; assumption).
    simpl. rewrite Hrole. simpl. apply lists_exactly_filter.
    intros d. destruct (Doctor.is_available d); simpl; intuition congruence.
  - intros Hno. rewrite objects_get_absent by assumption. reflexivity.
Qed.

Lemma doctor_list_by_role_witness :
  lists_exactly (DoctorViewSet.get_queryset Ward.booked Ward.alice)
    (doctors Ward.booked) (fun d => Doctor.user d = 1)
  /\ lists_exactly (DoctorViewSet.get_queryset Ward.booked Ward.bob)
       (doctors Ward.booked) (fun d => Doctor.is_available d = true)
  /\ DoctorViewSet.get_queryset Ward.booked Ward.dave = Ok [].
Proof.
  split; [|split].
  - destruct (doctor_list_by_role Ward.booked Ward.alice booked_db)
      as [H _].
    apply (H (UserProfile.mk 1 "doctor" None)); simpl; auto.
  - destruct (doctor_list_by_role Ward.booked Ward.bob booked_db)
      as [_ [H _]].
    apply (H (UserProfile.mk 2 "patient" None)); simpl; auto.
  - destruct (doctor_list_by_role Ward.booked Ward.dave booked_db)
      as [_ [_ H]].
    apply H. simpl. intros p Hp.
    repeat (destruct Hp as [<-|Hp]; [simpl; lia|]). destruct Hp.
Defined.

(** ** Appointment listing *)

(** C7.  Appointment list: an actor whose profile role is 'doctor' gets
    exactly the appointments whose doctor is the actor's Doctor record; an
    actor with any other role gets exactly the appointments whose patient is
    the actor; an actor without a profile, or with role 'doctor' and no
    Doctor record, gets the empty list, and nothing is raised. *)
Theorem appointment_list_by_role (s : Store) (user : User.t) :
  db_constraints s ->
  (forall d, has_role s user "doctor" ->
     In d (doctors s) -> Doctor.user d = User.id user ->
     lists_exactly (AppointmentViewSet.get_queryset s user) (appointments s)
       (fun a => Appointment.doctor a = Doctor.id d))
  /\ (forall p, In p (profiles s) -> UserProfile.user p = User.id user ->
        UserProfile.role p <> "doctor" ->
        lists_exactly (AppointmentViewSet.get_queryset s user)
          (appointments s) (fun a => Appointment.patient a = User.id user))
  /\ (~ has_profile s user ->
      AppointmentViewSet.get_queryset s user = Ok [])
  /\ (has_role s user "doctor" -> ~ has_doctor_record s user ->
      AppointmentViewSet.get_queryset s user = Ok []).
Proof.
  intros Hdb. unfold AppointmentViewSet.get_queryset. repeat split.
  - intros d [p [Hin [Hu Hrole]]] Hd Hdu.
    rewrite (objects_get_found MUserProfile UserProfile.user p)
      by (try apply Hdb; assumption).
    simpl. rewrite Hrole. simpl.
    rewrite (objects_get_found MDoctor Doctor.user d)
      by (try apply Hdb; assumption).
    simpl. apply lists_exactly_filter. intros a. apply Z.eqb_eq.
  - intros p Hin Hu Hrole.
    rewrite (objects_get_found MUserProfile UserProfile.user p)
      by (try apply Hdb; assumption).
    simpl. apply String.eqb_neq in Hrole. rewrite Hrole.
    simpl. apply lists_exactly_filter. intros a. apply Z.eqb_eq.
  - intros Hno. rewrite objects_get_absent; [reflexivity|].
    intros p Hp E. apply Hno. exists p. split; assumption.
  - intros [p [Hin [Hu Hrole]]] Hno.
    rewrite (objects_get_found MUserProfile UserProfile.user p)
      by (try apply Hdb; assumption).
    simpl. rewrite Hrole. simpl.
    rewrite objects_get_absent; [reflexivity|].
    intros d Hd E. apply Hno. exists d. split; assumption.
Qed.

Lemma appointment_list_by_role_witness :
  lists_exactly (AppointmentViewSet.get_queryset Ward.booked Ward.alice)
    (appointments Ward.booked) (fun a => Appointment.doctor a = 10)
  /\ lists_exactly (AppointmentViewSet.get_queryset Ward.booked Ward.bob)
       (appointments Ward.booked) (fun a => Appointment.patient a = 2).
Proof.
  split.
  - destruct (appointment_list_by_role Ward.booked Ward.alice booked_db)
      as [H _].
    apply (H Ward.dr_alice); simpl; auto.
    exists (UserProfile.mk 1 "doctor" None). simpl. auto.
  - destruct (appointment_list_by_role Ward.booked Ward.bob booked_db)
      as [_ [H _]].
    apply (H (UserProfile.mk 2 "patient" None)); simpl; auto.
    discriminate.
Defined.

(** ** Booking *)

Lemma same_key_spec (a b : Appointment.t) :
  Appointment.same_key a b = true <-> Appointment.key a = Appointment.key b.
Proof.
  unfold Appointment.same_key, Appointment.key.
  rewrite !andb_true_iff, !Z.eqb_eq. split.
  - intros [[-> ->] ->]. reflexivity.
  - intros E. injection E as -> -> ->. auto.
Qed.

Lemma Appointment_insert_free (a : Appointment.t)
  (table : list Appointment.t) :
  (forall b, In b table -> Appointment.key b <> Appointment.key a) ->
  Appointment_insert a table = Ok (table ++ [a]).
Proof.
  intros Hfree. unfold Appointment_insert.
  destruct (existsb (Appointment.same_key a) table) eqn:E; [|reflexivity].
  apply existsb_exists in E. destruct E as [b [Hb Hk]].
  apply same_key_spec in Hk. exfalso. apply (Hfree b Hb). symmetry. exact Hk.
Qed.

Lemma Appointment_insert_taken (a b : Appointment.t)
  (table : list Appointment.t) :
  In b table -> Appointment.key b = Appointment.key a ->
  Appointment_insert a table = Raise (IntegrityError MAppointment).
Proof.
  intros Hb Hk. unfold Appointment_insert.
  replace (existsb (Appointment.same_key a) table) with true; [reflexivity|].
  symmetry. apply existsb_exists. exists b. split; [exact Hb|].
  apply same_key_spec. symmetry. exact Hk.
Qed.

(** C1.  When the store holds an appointment with status 'scheduled' for the
    doctor, date and start time of a booking request, [book_appointment]
    answers 400 with the error 'Time slot already booked' and returns the
    store it was given. *)
Theorem book_conflict (s : Store) (user : User.t)
  (d : AppointmentViewSet.book_data) (now : Z) (a : Appointment.t) :
  db_constraints s ->
  In a (appointments s) ->
  Appointment.status a = "scheduled" ->
  Appointment.doctor a = AppointmentViewSet.doctor_id d ->
  Appointment.appointment_date a = AppointmentViewSet.appointment_date d ->
  Appointment.start_time a = AppointmentViewSet.start_time d ->
  AppointmentViewSet.book_appointment s user d now
  = Ok (mkResponse HTTP_400_BAD_REQUEST (Error "Time slot already booked"),
        s).
Proof.
  intros Hdb Ha Hst Hdoc Hdate Htime.
  destruct (appointments_doctor s Hdb a Ha) as [doc [Hin Hid]].
  unfold AppointmentViewSet.book_appointment.
  rewrite (objects_get_found MDoctor Doctor.id doc)
    by (try apply Hdb; congruence).
  replace (existsb _ (appointments s)) with true; [reflexivity|].
  symmetry. apply existsb_exists. exists a. split; [exact Ha|].
  rewrite Hst, Hdate, Htime, Hid, !Z.eqb_refl. reflexivity.
Qed.

Lemma book_conflict_witness :
  AppointmentViewSet.book_appointment Ward.booked Ward.carol
    (Ward.slot None) 2000
  = Ok (mkResponse HTTP_400_BAD_REQUEST (Error "Time slot already booked"),
        Ward.booked).
Proof.
  apply (book_conflict Ward.booked Ward.carol (Ward.slot None) 2000
           (Ward.visit "scheduled") booked_db);
    simpl; auto.
Defined.

(** The insert of a booking fails on any row with the same doctor, date and
    start time, whatever its status: [unique_together] has no status
    column, the check before the insert has one. *)
Lemma book_on_unscheduled_row (s : Store) (user : User.t)
  (d : AppointmentViewSet.book_data) (now : Z) (a : Appointment.t) :
  db_constraints s ->
  In a (appointments s) ->
  Appointment.status a <> "scheduled" ->
  Appointment.key a
  = (AppointmentViewSet.doctor_id d, AppointmentViewSet.appointment_date d,
     AppointmentViewSet.start_time d) ->
  AppointmentViewSet.book_appointment s user d now
  = Raise (IntegrityError MAppointment).
Proof.
  intros Hdb Ha Hst Hk.
  destruct (appointments_doctor s Hdb a Ha) as [doc [Hin Hid]].
  assert (Hdoc : Doctor.id doc = AppointmentViewSet.doctor_id d).
  { rewrite Hid. unfold Appointment.key in Hk. congruence. }
  unfold AppointmentViewSet.book_appointment.
  rewrite (objects_get_found MDoctor Doctor.id doc)
    by (try apply Hdb; assumption).
  destruct (existsb _ (appointments s)) eqn:E.
  - exfalso. apply existsb_exists in E. destruct E as [b [Hb Hc]].
    rewrite !andb_true_iff, !Z.eqb_eq in Hc.
    destruct Hc as [[[H1 H2] H3] H4]. apply String.eqb_eq in H4.
    assert (b = a); [|subst b; contradiction].
    assert (Hkb : Appointment.key b = Appointment.key a).
    { rewrite Hk. unfold Appointment.key. congruence. }
    clear - Hdb Ha Hb Hkb. pose proof (appointments_unique s Hdb) as Hnd.
    induction (appointments s) as [|x l IH]; [destruct Ha|].
    simpl in Hnd. inversion Hnd as [|? ? Hx Hl]; subst.
    destruct Ha as [->|Ha], Hb as [->|Hb]; auto.
    + exfalso. apply Hx. rewrite <- Hkb. apply in_map. exact Hb.
    + exfalso. apply Hx. rewrite Hkb. apply in_map. exact Ha.
  - erewrite Appointment_insert_taken; [reflexivity | exact Ha |].
    rewrite Hk. unfold Appointment.key. simpl. congruence.
Qed.

(** C2.  The scenario of the spec, run on the code: bob books Dr. 10 for
    2024-01-10 09:00 and is answered 201; carol's identical request is
    answered 400; bob cancels and is answered 200 with status 'cancelled';
    carol's identical request is then not answered 201: the insert raises
    [IntegrityError], and no scheduled appointment is created. *)
Theorem rebook_after_cancel_raises :
  exists s1 s2 r1 r2,
    AppointmentViewSet.book_appointment Ward.empty Ward.bob
      (Ward.slot None) 1000
    = Ok (r1, s1) /\ status_code r1 = HTTP_201_CREATED /\
    status_of (AppointmentViewSet.book_appointment s1 Ward.carol
                    (Ward.slot None) 1500) = HTTP_400_BAD_REQUEST /\
    AppointmentViewSet.cancel_appointment s1 Ward.bob 1 2000
    = Ok (r2, s2) /\ status_code r2 = HTTP_200_OK /\
    map Appointment.status (appointments s2) = ["cancelled"] /\
    AppointmentViewSet.book_appointment s2 Ward.carol (Ward.slot None) 3000
    = Raise (IntegrityError MAppointment).
Proof.
  do 4 eexists. repeat split; vm_compute; reflexivity.
Qed.

(** C9.  [book_appointment] never reads the profile table: with any profile
    table [ps] in place of the store's (so whatever the actor's role, or
    with no profile at all) and any client-sent [patient] value [who], a
    request for an existing doctor and a slot that no row occupies is
    answered 201, and the appointment it appends has status 'scheduled' and
    the requesting actor as its patient. *)
Theorem book_ignores_role (s : Store) (user : User.t)
  (d : AppointmentViewSet.book_data) (now : Z) (doc : Doctor.t)
  (ps : list UserProfile.t) (who : option Z) :
  db_constraints s ->
  In doc (doctors s) ->
  Doctor.id doc = AppointmentViewSet.doctor_id d ->
  (forall a, In a (appointments s) ->
     Appointment.key a
     <> (AppointmentViewSet.doctor_id d,
         AppointmentViewSet.appointment_date d,
         AppointmentViewSet.start_time d)) ->
  let request :=
    AppointmentViewSet.mkBook (AppointmentViewSet.doctor_id d)
      (AppointmentViewSet.appointment_date d)
      (AppointmentViewSet.start_time d) (AppointmentViewSet.end_time d)
      (AppointmentViewSet.reason d) who in
  let created :=
    Appointment.mk (next_pk (map Appointment.id (appointments s)))
      (Doctor.id doc) (User.id user) (AppointmentViewSet.appointment_date d)
      (AppointmentViewSet.start_time d) (AppointmentViewSet.end_time d)
      (AppointmentViewSet.reason d) "scheduled" None now now in
  AppointmentViewSet.book_appointment (set_profiles ps s) user request now
  = Ok (mkResponse HTTP_201_CREATED (AppointmentData created),
        set_appointments (appointments s ++ [created]) (set_profiles ps s)).
Proof.
  intros Hdb Hdoc Hid Hfree request created.
  unfold AppointmentViewSet.book_appointment. simpl.
  rewrite (objects_get_found MDoctor Doctor.id doc)
    by (try apply Hdb; assumption).
  destruct (existsb _ (appointments s)) eqn:E.
  - exfalso. apply existsb_exists in E. destruct E as [b [Hb Hc]].
    rewrite !andb_true_iff, !Z.eqb_eq in Hc.
    destruct Hc as [[[H1 H2] H3] _].
    apply (Hfree b Hb). unfold Appointment.key. congruence.
  - fold created. rewrite Appointment_insert_free; [reflexivity|].
    intros b Hb. unfold created, Appointment.key. simpl.
    rewrite Hid. apply Hfree. exact Hb.
Qed.

Lemma book_ignores_role_witness :
  (* alice, whose role is 'doctor', books with Dr. 10 and names bob (2) as
     the patient: the appointment is hers (1) *)
  AppointmentViewSet.book_appointment Ward.empty Ward.alice
    (Ward.slot (Some 2)) 1000
  = Ok (mkResponse HTTP_201_CREATED
          (AppointmentData
             (Appointment.mk 1 10 1 Ward.jan10 Ward.t0900 Ward.t0930
                "checkup" "scheduled" None 1000 1000)),
        Ward.with_appointments
          [Appointment.mk 1 10 1 Ward.jan10 Ward.t0900 Ward.t0930
             "checkup" "scheduled" None 1000 1000]).
Proof.
  apply (book_ignores_role Ward.empty Ward.alice (Ward.slot None) 1000
           Ward.dr_alice Ward.the_profiles (Some 2) empty_db).
  - simpl. auto.
  - reflexivity.
  - intros a [].
Defined.

(** ** Cancellation *)

Section FilterFacts.

Context {A : Type}.

Lemma filter_filter_comm (f g : A -> bool) (l : list A) :
  filter f (filter g l) = filter g (filter f l).
Proof.
  induction l as [|x l IH]; [reflexivity|]. simpl.
  destruct (g x) eqn:Eg, (f x) eqn:Ef; simpl;
    rewrite ?Eg, ?Ef, IH; reflexivity.
Qed.

Lemma filter_none (l : list A) : filter (fun _ => false) l = [].
Proof. induction l; simpl; auto. Qed.

Lemma NoDup_map_inj (B : Type) (f : A -> B) (l : list A) (x y : A) :
  NoDup (map f l) -> In x l -> In y l -> f x = f y -> x = y.
Proof.
  induction l as [|z l IH]; intros Hnd Hx Hy E; [destruct Hx|].
  simpl in Hnd. inversion Hnd as [|? ? Hz Hl]; subst.
  destruct Hx as [->|Hx], Hy as [->|Hy]; auto.
  - exfalso. apply Hz. rewrite E. apply in_map. exact Hy.
  - exfalso. apply Hz. rewrite <- E. apply in_map. exact Hx.
Qed.

End FilterFacts.

(** The appointment list of an actor is a filter of the table on the doctor
    and patient columns; which filter depends on the profile and doctor
    tables alone.  In particular the listing never raises. *)
Lemma appointment_queryset_shape (s : Store) (user : User.t) :
  db_constraints s ->
  exists g : Z -> Z -> bool,
    forall table,
      AppointmentViewSet.get_queryset (set_appointments table s) user
      = Ok (filter (fun a => g (Appointment.doctor a) (Appointment.patient a))
              table).
Proof.
  intros Hdb. unfold AppointmentViewSet.get_queryset. simpl.
  destruct (col_dec UserProfile.user (User.id user) (profiles s))
    as [[p [Hp Hu]]|Hno].
  - rewrite (objects_get_found MUserProfile UserProfile.user p)
      by (try apply Hdb; assumption).
    simpl. destruct (String.eqb (UserProfile.role p) "doctor").
    + destruct (col_dec Doctor.user (User.id user) (doctors s))
        as [[d [Hd Hdu]]|Hnod].
      * rewrite (objects_get_found MDoctor Doctor.user d)
          by (try apply Hdb; assumption).
        exists (fun doc _ => doc =? Doctor.id d). reflexivity.
      * rewrite objects_get_absent by assumption.
        exists (fun _ _ => false). intros table. simpl.
        rewrite filter_none. reflexivity.
    + exists (fun _ pat => pat =? User.id user). reflexivity.
  - rewrite objects_get_absent by assumption.
    exists (fun _ _ => false). intros table. simpl.
    rewrite filter_none. reflexivity.
Qed.

Lemma set_appointments_same (s : Store) :
  set_appointments (appointments s) s = s.
Proof. destruct s. reflexivity. Qed.

(** [get_object] on a filter of a table whose primary key does not repeat. *)
Lemma get_object_filtered (f : Appointment.t -> bool)
  (table : list Appointment.t) (a : Appointment.t) :
  NoDup (map Appointment.id table) -> In a table ->
  get_object MAppointment Appointment.id (Ok (filter f table))
    (Appointment.id a)
  = if f a then Ok a else Raise Http404.
Proof.
  intros Hnd Ha. unfold get_object, objects_get. simpl.
  rewrite filter_filter_comm, filter_col_unique by assumption.
  simpl. destruct (f a); reflexivity.
Qed.

(** Saving a row whose key columns were not touched. *)
Lemma Appointment_update_same_key (a a' : Appointment.t)
  (table : list Appointment.t) :
  NoDup (map Appointment.key table) -> In a table ->
  Appointment.id a' = Appointment.id a ->
  Appointment.key a' = Appointment.key a ->
  Appointment_update a' table
  = Ok (map (fun b => if Appointment.id b =? Appointment.id a
                      then a' else b) table).
Proof.
  intros Hnd Ha Hid Hk. unfold Appointment_update. rewrite Hid.
  destruct (existsb _ table) eqn:E; [|reflexivity].
  exfalso. apply existsb_exists in E. destruct E as [b [Hb Hc]].
  apply andb_true_iff in Hc. destruct Hc as [Hsame Hne].
  apply same_key_spec in Hsame.
  assert (b = a) as ->.
  { apply (NoDup_map_inj _ Appointment.key table); congruence. }
  rewrite Z.eqb_refl in Hne. discriminate.
Qed.

(** What [cancel_appointment] does on a row of the table, by cases on
    whether the row is in the actor's list and whether the actor is its
    patient. *)
Lemma cancel_cases (s : Store) (user : User.t) (a : Appointment.t)
  (now : Z) (qs : list Appointment.t) :
  db_constraints s -> In a (appointments s) ->
  AppointmentViewSet.get_queryset s user = Ok qs ->
  let a' := Appointment.set_updated_at now
              (Appointment.set_status "cancelled" a) in
  (~ In a qs ->
   AppointmentViewSet.cancel_appointment s user (Appointment.id a) now
   = Raise Http404)
  /\ (In a qs -> User.id user <> Appointment.patient a ->
      AppointmentViewSet.cancel_appointment s user (Appointment.id a) now
      = Ok (mkResponse HTTP_403_FORBIDDEN (Error "Unauthorized"), s))
  /\ (In a qs -> User.id user = Appointment.patient a ->
      AppointmentViewSet.cancel_appointment s user (Appointment.id a) now
      = Ok (mkResponse HTTP_200_OK (AppointmentData a'),
            set_appointments
              (map (fun b => if Appointment.id b =? Appointment.id a
                             then a' else b) (appointments s)) s)).
Proof.
  intros Hdb Ha Hqs a'.
  destruct (appointment_queryset_shape s user Hdb) as [g Hg].
  specialize (Hg (appointments s)). rewrite set_appointments_same in Hg.
  rewrite Hg in Hqs. injection Hqs as <-.
  unfold AppointmentViewSet.cancel_appointment. rewrite Hg.
  rewrite get_object_filtered by (try apply Hdb; assumption).
  rewrite filter_In.
  destruct (g (Appointment.doctor a) (Appointment.patient a)) eqn:Eg.
  - simpl. repeat split.
    + intros Hno. exfalso. apply Hno. auto.
    + intros _ Hne.
      destruct (Z.eqb_spec (Appointment.patient a) (User.id user));
        [congruence | reflexivity].
    + intros _ He. rewrite <- He, Z.eqb_refl. simpl. fold a'.
      rewrite (Appointment_update_same_key a a');
        [reflexivity | apply Hdb | exact Ha | reflexivity | reflexivity].
  - simpl. repeat split; try reflexivity; intros [_ F]; discriminate.
Qed.

(** The update of a cancel keeps the database constraints. *)
Lemma cancel_keeps_constraints (s : Store) (a : Appointment.t) (now : Z) :
  db_constraints s -> In a (appointments s) ->
  let a' := Appointment.set_updated_at now
              (Appointment.set_status "cancelled" a) in
  db_constraints
    (set_appointments
       (map (fun b => if Appointment.id b =? Appointment.id a
                      then a' else b) (appointments s)) s).
Proof.
  intros Hdb Ha a'.
  assert (Hsame : forall b, In b (appointments s) ->
            Appointment.id b = Appointment.id a -> b = a).
  { intros b Hb E.
    apply (NoDup_map_inj _ Appointment.id (appointments s));
      [apply Hdb | assumption..]. }
  assert (Hcol : forall (B : Type) (col : Appointment.t -> B),
            col a' = col a ->
            map col (map (fun b => if Appointment.id b =? Appointment.id a
                                   then a' else b) (appointments s))
            = map col (appointments s)).
  { intros B col E. rewrite map_map. apply map_ext_in. intros b Hb.
    destruct (Z.eqb_spec (Appointment.id b) (Appointment.id a)) as [Eid|_];
      [|reflexivity].
    rewrite E, (Hsame b Hb Eid). reflexivity. }
  destruct Hdb as [H1 H2 H3 H4 H5 H6 H7].
  constructor; simpl; try assumption.
  - rewrite Hcol by reflexivity. exact H5.
  - rewrite Hcol by reflexivity. exact H6.
  - intros b Hb. apply in_map_iff in Hb. destruct Hb as [c [Ec Hc]].
    destruct (Z.eqb_spec (Appointment.id c) (Appointment.id a)) as [Eid|_].
    + subst b. simpl. apply H7. exact Ha.
    + subst b. apply H7. exact Hc.
Qed.

(** C5, as stated, fails.  carol is not the patient of the visit of bob,
    and her cancel is answered 404, not 403: the visit is not in her
    appointment list, so [get_object] raises before the ownership test.
    dave is the patient of his visit and has no profile: his list is empty,
    and his cancel is answered 404 too. *)
Lemma cancel_outside_list_is_404 :
  (In (Ward.visit "scheduled") (appointments Ward.booked)
   /\ User.id Ward.carol <> Appointment.patient (Ward.visit "scheduled")
   /\ AppointmentViewSet.cancel_appointment Ward.booked Ward.carol 100 2000
      = Raise Http404
   /\ status_of
       (AppointmentViewSet.cancel_appointment Ward.booked Ward.carol 100
           2000) <> HTTP_403_FORBIDDEN)
  /\ (In (Ward.visit_of 4 "scheduled") (appointments Ward.walk_in)
      /\ User.id Ward.dave = Appointment.patient (Ward.visit_of 4 "scheduled")
      /\ AppointmentViewSet.cancel_appointment Ward.walk_in Ward.dave 100
           2000 = Raise Http404).
Proof.
  repeat split; try (simpl; auto; fail); vm_compute; discriminate.
Qed.

(** C5, amended.  On an appointment [a] of the table, for an actor who is
    not its patient, [cancel_appointment] never writes: it answers 403 when
    [a] is in the actor's appointment list and raises [Http404] (answered
    404) when it is not; either way the store, and with it every field of
    [a], is as before.  For the patient of [a], the cancel is answered 200
    when [a] is in the patient's own list. *)
Theorem cancel_by_other_denied (s : Store) (user : User.t)
  (a : Appointment.t) (now : Z) :
  db_constraints s -> In a (appointments s) ->
  exists qs,
    AppointmentViewSet.get_queryset s user = Ok qs /\
    let r := AppointmentViewSet.cancel_appointment s user
               (Appointment.id a) now in
    (User.id user <> Appointment.patient a ->
     store_after s r = s /\
     (In a qs ->
      r = Ok (mkResponse HTTP_403_FORBIDDEN (Error "Unauthorized"), s)) /\
     (~ In a qs -> r = Raise Http404 /\ status_of r = HTTP_404_NOT_FOUND))
    /\ (User.id user = Appointment.patient a -> In a qs ->
        status_of r = HTTP_200_OK).
Proof.
  intros Hdb Ha.
  destruct (appointment_queryset_shape s user Hdb) as [g Hg].
  specialize (Hg (appointments s)). rewrite set_appointments_same in Hg.
  eexists. split; [exact Hg|].
  destruct (cancel_cases s user a now _ Hdb Ha Hg) as [Hout [Hdeny Hown]].
  set (qs := filter _ (appointments s)) in *.
  cbv zeta. split.
  - intros Hne.
    assert (Hdec : In a qs \/ ~ In a qs).
    { unfold qs. rewrite filter_In.
      destruct (g (Appointment.doctor a) (Appointment.patient a));
        [left; auto | right; intros [_ F]; discriminate]. }
    split; [|split].
    + destruct Hdec as [Hin|Hno].
      * rewrite (Hdeny Hin Hne). reflexivity.
      * rewrite (Hout Hno). reflexivity.
    + intros Hin. exact (Hdeny Hin Hne).
    + intros Hno. rewrite (Hout Hno). split; reflexivity.
  - intros He Hin. rewrite (Hown Hin He). reflexivity.
Qed.

Lemma cancel_by_other_denied_witness :
  (* alice is the doctor of the visit of bob: it is in her list, and her
     cancel is answered 403 *)
  AppointmentViewSet.cancel_appointment Ward.booked Ward.alice 100 2000
  = Ok (mkResponse HTTP_403_FORBIDDEN (Error "Unauthorized"), Ward.booked).
Proof.
  destruct (cancel_by_other_denied Ward.booked Ward.alice
              (Ward.visit "scheduled") 2000 booked_db)
    as [qs [Hqs [H _]]].
  - simpl. auto.
  - injection Hqs as <-. apply H.
    + simpl. lia.
    + simpl. auto.
Defined.

(** C8, as stated, fails.  The cancel of bob at time 2000 sets the status of
    his visit and also its [updated_at], which [auto_now] rewrites on every
    save; a second cancel at time 3000 is answered 200 and rewrites
    [updated_at] again, so the row is not the one the first cancel left.
    And the cancel of dave, patient of his visit but without a profile, is
    not carried out at all. *)
Lemma cancel_rewrites_updated_at :
  let v1 := Appointment.mk 100 10 2 Ward.jan10 Ward.t0900 Ward.t0930
              "checkup" "cancelled" None 1000 2000 in
  let v2 := Appointment.mk 100 10 2 Ward.jan10 Ward.t0900 Ward.t0930
              "checkup" "cancelled" None 1000 3000 in
  AppointmentViewSet.cancel_appointment Ward.booked Ward.bob 100 2000
  = Ok (mkResponse HTTP_200_OK (AppointmentData v1),
        Ward.with_appointments [v1])
  /\ Appointment.updated_at v1
     <> Appointment.updated_at (Ward.visit "scheduled")
  /\ AppointmentViewSet.cancel_appointment (Ward.with_appointments [v1])
       Ward.bob 100 3000
     = Ok (mkResponse HTTP_200_OK (AppointmentData v2),
           Ward.with_appointments [v2])
  /\ v2 <> v1
  /\ store_after Ward.walk_in
       (AppointmentViewSet.cancel_appointment Ward.walk_in Ward.dave 100
          2000) = Ward.walk_in.
Proof.
  cbv zeta. repeat split; try reflexivity; discriminate.
Qed.

(** C8, amended.  For an appointment [a] that is in its patient's own
    appointment list, a cancel by the patient at time [now] is answered 200
    and replaces [a] by [a] with status 'cancelled' and [updated_at = now],
    every other field and every other row being as before; a second cancel
    at time [now'] is answered 200 again and changes [updated_at] alone, to
    [now'], the status staying 'cancelled'. *)
Theorem cancel_by_patient (s : Store) (user : User.t) (a : Appointment.t)
  (now now' : Z) (qs : list Appointment.t) :
  db_constraints s -> In a (appointments s) ->
  User.id user = Appointment.patient a ->
  AppointmentViewSet.get_queryset s user = Ok qs -> In a qs ->
  let a1 := Appointment.set_updated_at now
              (Appointment.set_status "cancelled" a) in
  let a2 := Appointment.set_updated_at now' a1 in
  let put x := set_appointments
                 (map (fun b => if Appointment.id b =? Appointment.id a
                                then x else b) (appointments s)) s in
  AppointmentViewSet.cancel_appointment s user (Appointment.id a) now
  = Ok (mkResponse HTTP_200_OK (AppointmentData a1), put a1)
  /\ AppointmentViewSet.cancel_appointment (put a1) user (Appointment.id a)
       now'
     = Ok (mkResponse HTTP_200_OK (AppointmentData a2), put a2)
  /\ Appointment.status a2 = "cancelled".
Proof.
  intros Hdb Ha Hu Hqs Hin a1 a2 put.
  destruct (cancel_cases s user a now qs Hdb Ha Hqs) as [_ [_ Hown]].
  split; [exact (Hown Hin Hu)|]. split; [|reflexivity].
  (* the second cancel runs on the store the first one left *)
  pose proof (cancel_keeps_constraints s a now Hdb Ha) as Hdb1.
  cbv zeta in Hdb1. fold a1 in Hdb1. fold (put a1) in Hdb1.
  assert (Ha1 : In a1 (appointments (put a1))).
  { unfold put. simpl. apply in_map_iff. exists a.
    rewrite Z.eqb_refl. auto. }
  destruct (appointment_queryset_shape s user Hdb) as [g Hg].
  assert (Hqs1 : AppointmentViewSet.get_queryset (put a1) user
                 = Ok (filter (fun b => g (Appointment.doctor b)
                                          (Appointment.patient b))
                         (appointments (put a1)))).
  { unfold put. rewrite Hg. reflexivity. }
  assert (Hin1 : In a1 (filter (fun b => g (Appointment.doctor b)
                                           (Appointment.patient b))
                          (appointments (put a1)))).
  { apply filter_In. split; [exact Ha1|].
    pose proof (Hg (appointments s)) as Hg0.
    rewrite set_appointments_same, Hqs in Hg0. injection Hg0 as ->.
    apply filter_In in Hin. apply Hin. }
  destruct (cancel_cases (put a1) user a1 now' _ Hdb1 Ha1 Hqs1)
    as [_ [_ Hown1]].
  specialize (Hown1 Hin1 Hu). simpl in Hown1.
  change (Appointment.id a1) with (Appointment.id a) in Hown1.
  rewrite Hown1. f_equal. f_equal. unfold put, set_appointments. simpl.
  f_equal. rewrite map_map. apply map_ext. intros b.
  destruct (Z.eqb_spec (Appointment.id b) (Appointment.id a)) as [E|N].
  - simpl. rewrite Z.eqb_refl. reflexivity.
  - apply Z.eqb_neq in N. rewrite N. reflexivity.
Qed.

Lemma cancel_by_patient_witness :
  let v1 := Appointment.mk 100 10 2 Ward.jan10 Ward.t0900 Ward.t0930
              "checkup" "cancelled" None 1000 2000 in
  AppointmentViewSet.cancel_appointment Ward.booked Ward.bob 100 2000
  = Ok (mkResponse HTTP_200_OK (AppointmentData v1),
        Ward.with_appointments [v1]).
Proof.
  apply (cancel_by_patient Ward.booked Ward.bob (Ward.visit "scheduled")
           2000 3000 [Ward.visit "scheduled"] booked_db);
    simpl; auto.
Defined.

(** ** Availability slots *)

Lemma doctor_of_actor (s : Store) (user : User.t) (d : Doctor.t) :
  db_constraints s -> In d (doctors s) -> Doctor.user d = User.id user ->
  objects_get MDoctor (fun x => Doctor.user x =? User.id user) (doctors s)
  = Ok d.
Proof.
  intros Hdb Hd Hu. apply objects_get_found; [apply Hdb | exact Hd | exact Hu].
Qed.

Lemma no_doctor_of_actor (s : Store) (user : User.t) :
  ~ has_doctor_record s user ->
  objects_get MDoctor (fun x => Doctor.user x =? User.id user) (doctors s)
  = Raise (DoesNotExist MDoctor).
Proof.
  intros Hno. apply objects_get_absent. intros d Hd E.
  apply Hno. exists d. split; assumption.
Qed.

(** C6.  The doctor of a created or updated availability slot is the Doctor
    record of the requesting actor: the row written has that record's
    primary key in its [doctor] column, whatever [doctor] the validated
    client data carries, and the write is refused only by the uniqueness
    constraint.  An actor without a Doctor record gets [NotFound]
    ('Doctor profile not found') from both operations. *)
Theorem availability_doctor_from_actor (s : Store) (user : User.t)
  (vd : DoctorAvailabilityViewSet.validated_data)
  (instance : DoctorAvailability.t) :
  db_constraints s ->
  (forall d, In d (doctors s) -> Doctor.user d = User.id user ->
     let fields pk :=
       DoctorAvailability.mk pk (Doctor.id d)
         (DoctorAvailabilityViewSet.day_of_week vd)
         (DoctorAvailabilityViewSet.start_time vd)
         (DoctorAvailabilityViewSet.end_time vd)
         (DoctorAvailabilityViewSet.is_active vd) in
     let created :=
       fields (next_pk (map DoctorAvailability.id (availability s))) in
     let updated := fields (DoctorAvailability.id instance) in
     DoctorAvailabilityViewSet.perform_create s user vd
     = (if existsb (DoctorAvailability.same_key created) (availability s)
        then Raise (IntegrityError MDoctorAvailability)
        else Ok (set_availability (availability s ++ [created]) s))
     /\ DoctorAvailabilityViewSet.perform_update s user instance vd
        = (if existsb
                (fun b => DoctorAvailability.same_key updated b
                          && negb (DoctorAvailability.id b
                                   =? DoctorAvailability.id instance))
                (availability s)
           then Raise (IntegrityError MDoctorAvailability)
           else Ok (set_availability
                      (map (fun b => if DoctorAvailability.id b
                                        =? DoctorAvailability.id instance
                                     then updated else b)
                         (availability s)) s)))
  /\ (~ has_doctor_record s user ->
      DoctorAvailabilityViewSet.perform_create s user vd
      = Raise (NotFound "Doctor profile not found")
      /\ DoctorAvailabilityViewSet.perform_update s user instance vd
         = Raise (NotFound "Doctor profile not found")).
Proof.
  intros Hdb. split.
  - intros d Hd Hu fields created updated.
    unfold DoctorAvailabilityViewSet.perform_create,
      DoctorAvailabilityViewSet.perform_update.
    rewrite (doctor_of_actor s user d Hdb Hd Hu). simpl.
    unfold DoctorAvailabilityViewSet.save_new,
      DoctorAvailabilityViewSet.save_instance,
      DoctorAvailability_insert, DoctorAvailability_update.
    fold (fields (next_pk (map DoctorAvailability.id (availability s)))).
    fold (fields (DoctorAvailability.id instance)).
    fold created. fold updated. split.
    + destruct (existsb _ (availability s)); reflexivity.
    + change (DoctorAvailability.id updated)
        with (DoctorAvailability.id instance).
      destruct (existsb _ (availability s)); reflexivity.
  - intros Hno.
    unfold DoctorAvailabilityViewSet.perform_create,
      DoctorAvailabilityViewSet.perform_update.
    rewrite (no_doctor_of_actor s user Hno). split; reflexivity.
Qed.

Lemma availability_doctor_from_actor_witness :
  (* alice sends a slot that names Dr. 11: it is stored under her own
     record, Dr. 10; bob has no Doctor record *)
  DoctorAvailabilityViewSet.perform_create Ward.booked Ward.alice
    (DoctorAvailabilityViewSet.mkData 11 "MON" Ward.t0900 Ward.t0930 true)
  = Ok (set_availability
          [DoctorAvailability.mk 1 10 "MON" Ward.t0900 Ward.t0930 true]
          Ward.booked)
  /\ DoctorAvailabilityViewSet.perform_create Ward.booked Ward.bob
       (DoctorAvailabilityViewSet.mkData 11 "MON" Ward.t0900 Ward.t0930 true)
     = Raise (NotFound "Doctor profile not found").
Proof.
  split.
  - destruct (availability_doctor_from_actor Ward.booked Ward.alice
                (DoctorAvailabilityViewSet.mkData 11 "MON" Ward.t0900
                   Ward.t0930 true)
                (DoctorAvailability.mk 1 10 "MON" 0 0 true) booked_db)
      as [H _].
    destruct (H Ward.dr_alice) as [Hc _]; [simpl; auto | reflexivity|].
    exact Hc.
  - destruct (availability_doctor_from_actor Ward.booked Ward.bob
                (DoctorAvailabilityViewSet.mkData 11 "MON" Ward.t0900
                   Ward.t0930 true)
                (DoctorAvailability.mk 1 10 "MON" 0 0 true) booked_db)
      as [_ H].
    apply H. intros [d [Hd E]]. simpl in Hd.
    repeat (destruct Hd as [<-|Hd]; [simpl in E; lia|]). destruct Hd.
Defined.

(** ** Medical reports *)




Lemma profile_of_actor (s : Store) (user : User.t) (r : string) :
  db_constraints s -> has_role s user r ->
  exists p, UserProfile.role p = r /\
    objects_get MUserProfile (fun x => UserProfile.user x =? User.id user)
      (profiles s) = Ok p.
Proof.
  intros Hdb [p [Hp [Hu Hr]]]. exists p. split; [exact Hr|].
  apply objects_get_found; [apply Hdb | exact Hp | exact Hu].
Qed.

Lemma role_unique (s : Store) (user : User.t) (r r' : string) :
  db_constraints s -> has_role s user r -> has_role s user r' -> r = r'.
Proof.
  intros Hdb [p [Hp [Hu Hr]]] [p' [Hp' [Hu' Hr']]].
  assert (p = p') as <-; [|congruence].
  apply (NoDup_map_inj _ UserProfile.user (profiles s));
    [apply Hdb | assumption | assumption | congruence].
Qed.

(** The report list of a doctor-role actor, by membership. *)
Lemma doctor_reports_spec (s : Store) (user : User.t) :
  db_constraints s -> has_role s user "doctor" ->
  exists qs, MedicalReportViewSet.get_queryset s user = Ok qs /\
    forall r, In r qs <->
      In r (reports s) /\ shares_appointment s user (MedicalReport.patient r).
Proof.
  intros Hdb Hrole.
  destruct (profile_of_actor s user _ Hdb Hrole) as [p [Hr Hget]].
  unfold MedicalReportViewSet.get_queryset. rewrite Hget, Hr. simpl.
  destruct (col_dec Doctor.user (User.id user) (doctors s))
    as [[d [Hd Hu]]|Hno].
  - rewrite (doctor_of_actor s user d Hdb Hd Hu). simpl.
    eexists. split; [reflexivity|]. intros r. rewrite filter_In.
    split; intros [Hin H]; (split; [exact Hin|]).
    + apply existsb_exists in H. destruct H as [pid [Hpid E]].
      apply Z.eqb_eq in E. apply in_map_iff in Hpid.
      destruct Hpid as [a [Ea Ha]]. apply filter_In in Ha.
      destruct Ha as [Ha Hdoc]. apply Z.eqb_eq in Hdoc.
      exists d, a. repeat split; congruence.
    + destruct H as [d' [a [Hd' [Hu' [Ha [Hdoc Hpat]]]]]].
      assert (d' = d) as ->.
      { apply (NoDup_map_inj _ Doctor.user (doctors s));
          [apply Hdb | assumption | assumption | congruence]. }
      apply existsb_exists. exists (Appointment.patient a). split.
      * apply in_map. apply filter_In. split; [exact Ha|].
        apply Z.eqb_eq. exact Hdoc.
      * apply Z.eqb_eq. symmetry. exact Hpat.
  - rewrite objects_get_absent by assumption. simpl.
    exists []. split; [reflexivity|]. intros r. split; [intros []|].
    intros [_ [d [a [Hd [Hu _]]]]]. exact (Hno d Hd Hu).
Qed.

(** The report list of an actor with any other role. *)
Lemma patient_reports_spec (s : Store) (user : User.t) (role : string) :
  db_constraints s -> has_role s user role -> role <> "doctor" ->
  MedicalReportViewSet.get_queryset s user
  = Ok (filter (fun r => MedicalReport.patient r =? User.id user)
          (reports s)).
Proof.
  intros Hdb Hrole Hne.
  destruct (profile_of_actor s user _ Hdb Hrole) as [p [Hr Hget]].
  unfold MedicalReportViewSet.get_queryset. rewrite Hget, Hr.
  apply String.eqb_neq in Hne. rewrite Hne. reflexivity.
Qed.

(** The report queryset never raises. *)
Lemma report_queryset_total (s : Store) (user : User.t) :
  db_constraints s ->
  exists qs, MedicalReportViewSet.get_queryset s user = Ok qs.
Proof.
  intros Hdb.
  destruct (col_dec UserProfile.user (User.id user) (profiles s))
    as [[p [Hp Hu]]|Hno].
  - destruct (string_dec (UserProfile.role p) "doctor") as [E|N].
    + destruct (doctor_reports_spec s user Hdb) as [qs [Hqs _]].
      * exists p. auto.
      * exists qs. exact Hqs.
    + eexists. apply (patient_reports_spec s user (UserProfile.role p));
        [exact Hdb | exists p; auto | exact N].
  - unfold MedicalReportViewSet.get_queryset.
    rewrite objects_get_absent by assumption. eexists. reflexivity.
Qed.

(** C3, as stated, fails on the answer to a refused [patient_id] filter.
    erin has the role 'doctor' and no Doctor record, is not bob and shares
    no appointment with him: her request for bob's reports is answered 404,
    not 403.  bob's request for the reports of user 99, who does not exist,
    is answered 404.  frank, a doctor without appointments, asks for his
    own id and is answered 403 although he is that patient. *)
Lemma report_filter_refusals :
  (User.id Ward.erin <> 2 /\ ~ shares_appointment Ward.booked Ward.erin 2
   /\ MedicalReportViewSet.list Ward.booked Ward.erin (Some 2)
      = Ok (mkResponse HTTP_404_NOT_FOUND (Error "Doctor profile not found")))
  /\ (User.id Ward.bob <> 99 /\ ~ shares_appointment Ward.booked Ward.bob 99
      /\ MedicalReportViewSet.list Ward.booked Ward.bob (Some 99)
         = Ok (mkResponse HTTP_404_NOT_FOUND (Error "Patient not found")))
  /\ (User.id Ward.frank = 6
      /\ MedicalReportViewSet.list Ward.booked Ward.frank (Some 6)
         = Ok (mkResponse HTTP_403_FORBIDDEN
                 (Error "No access to this patient")))
  /\ HTTP_404_NOT_FOUND <> HTTP_403_FORBIDDEN.
Proof.
  assert (Hno : forall u pid, (User.id u = 5 \/ User.id u = 2) ->
            ~ shares_appointment Ward.booked u pid).
  { intros u pid Hu [d [a [Hd [Hdu _]]]]. simpl in Hd.
    repeat (destruct Hd as [<-|Hd]; [simpl in Hdu; lia|]). destruct Hd. }
  repeat split; try reflexivity; try discriminate.
  - apply Hno. left. reflexivity.
  - apply Hno. right. reflexivity.
Qed.

(** The answer to a [patient_id] filter once the queryset, the patient and
    the profile are known. *)
Lemma list_filtered_unfold (s : Store) (user : User.t) (pid : Z)
  (qs : list MedicalReport.t) (u : User.t) (p : UserProfile.t) :
  db_constraints s ->
  MedicalReportViewSet.get_queryset s user = Ok qs ->
  In u (users s) -> User.id u = pid ->
  In p (profiles s) -> UserProfile.user p = User.id user ->
  MedicalReportViewSet.list s user (Some pid)
  = let filtered :=
      Ok (mkResponse HTTP_200_OK
            (ReportList (filter (fun r => MedicalReport.patient r =? pid)
                           qs))) in
    if String.eqb (UserProfile.role p) "doctor"
    then match objects_get MDoctor
                 (fun d => Doctor.user d =? User.id user) (doctors s) with
         | Raise (DoesNotExist MDoctor) =>
             Ok (mkResponse HTTP_404_NOT_FOUND
                   (Error "Doctor profile not found"))
         | Raise e => Raise e
         | Ok doctor =>
             if negb (existsb
                        (fun a => (Appointment.doctor a =? Doctor.id doctor)
                                  && (Appointment.patient a =? pid))
                        (appointments s))
             then Ok (mkResponse HTTP_403_FORBIDDEN
                        (Error "No access to this patient"))
             else filtered
         end
    else if negb (User.id user =? pid)
         then Ok (mkResponse HTTP_403_FORBIDDEN (Error "Unauthorized"))
         else filtered.
Proof.
  intros Hdb Hqs Hu Hid Hp Hpu. unfold MedicalReportViewSet.list.
  rewrite Hqs. simpl.
  rewrite (objects_get_found MUser User.id u)
    by (try apply Hdb; assumption).
  rewrite (objects_get_found MUserProfile UserProfile.user p)
    by (try apply Hdb; assumption).
  rewrite Hid. reflexivity.
Qed.

Lemma shares_by_computation (s : Store) (user : User.t) (d : Doctor.t)
  (pid : Z) :
  db_constraints s -> In d (doctors s) -> Doctor.user d = User.id user ->
  existsb (fun a => (Appointment.doctor a =? Doctor.id d)
                    && (Appointment.patient a =? pid)) (appointments s)
  = true <-> shares_appointment s user pid.
Proof.
  intros Hdb Hd Hu. rewrite existsb_exists. split.
  - intros [a [Ha E]]. apply andb_true_iff in E.
    rewrite !Z.eqb_eq in E. destruct E as [E1 E2].
    exists d, a. auto.
  - intros [d' [a [Hd' [Hu' [Ha [E1 E2]]]]]].
    assert (d' = d) as ->.
    { apply (NoDup_map_inj _ Doctor.user (doctors s));
        [apply Hdb | assumption | assumption | congruence]. }
    exists a. split; [exact Ha|]. rewrite E1, E2, !Z.eqb_refl. reflexivity.
Qed.

(** C3, amended.  Without a filter, a doctor-role actor is answered exactly
    the reports whose patient shares an appointment of any status with the
    actor's Doctor record, and a patient-role actor exactly the reports
    whose patient is the actor.  A [patient_id] filter is granted, and
    answered with exactly the reports of that patient, when the id names a
    user and the actor either has a role other than 'doctor' and is that
    user, or has the role 'doctor' and shares an appointment with that
    user.  Otherwise it is refused with an error answer: 404 when the id
    names no user or when the actor has the role 'doctor' and no Doctor
    record, 403 in every other case. *)
Theorem report_visibility (s : Store) (user : User.t) (pid : Z) :
  db_constraints s ->
  (has_role s user "doctor" ->
   exists qs,
     MedicalReportViewSet.list s user None
     = Ok (mkResponse HTTP_200_OK (ReportList qs)) /\
     forall r, In r qs <->
       In r (reports s)
       /\ shares_appointment s user (MedicalReport.patient r))
  /\ (has_role s user "patient" ->
      exists qs,
        MedicalReportViewSet.list s user None
        = Ok (mkResponse HTTP_200_OK (ReportList qs)) /\
        forall r, In r qs <->
          In r (reports s) /\ MedicalReport.patient r = User.id user)
  /\ (filter_granted s user pid ->
      exists qs,
        MedicalReportViewSet.list s user (Some pid)
        = Ok (mkResponse HTTP_200_OK (ReportList qs)) /\
        forall r, In r qs <->
          In r (reports s) /\ MedicalReport.patient r = pid)
  /\ (~ filter_granted s user pid ->
      exists code msg,
        MedicalReportViewSet.list s user (Some pid)
        = Ok (mkResponse code (Error msg)) /\
        (code = HTTP_403_FORBIDDEN \/ code = HTTP_404_NOT_FOUND) /\
        (code = HTTP_404_NOT_FOUND <->
         (forall u, In u (users s) -> User.id u <> pid)
         \/ (has_role s user "doctor" /\ ~ has_doctor_record s user))).
Proof.
  intros Hdb. split; [|split; [|split]].
  - (* doctor, no filter *)
    intros Hrole.
    destruct (doctor_reports_spec s user Hdb Hrole) as [qs [Hqs Hmem]].
    exists qs. split; [|exact Hmem].
    unfold MedicalReportViewSet.list. rewrite Hqs. reflexivity.
  - (* patient, no filter *)
    intros Hrole. eexists. split.
    + unfold MedicalReportViewSet.list.
      rewrite (patient_reports_spec s user "patient" Hdb Hrole)
        by discriminate.
      reflexivity.
    + intros r. rewrite filter_In, Z.eqb_eq. reflexivity.
  - (* filter granted *)
    intros [[u [Hu Hid]] Hor].
    destruct Hor as [[r [Hrole [Hne Hself]]]|[Hrole Hshare]].
    + pose proof Hrole as [p [Hp [Hpu Hpr]]].
      pose proof (patient_reports_spec s user r Hdb Hrole Hne) as Hqs.
      eexists. split.
      * rewrite (list_filtered_unfold s user pid _ u p Hdb Hqs)
          by assumption.
        cbv zeta. rewrite Hpr. apply String.eqb_neq in Hne. rewrite Hne.
        rewrite Hself, Z.eqb_refl. reflexivity.
      * intros x. rewrite !filter_In, !Z.eqb_eq. tauto.
    + pose proof Hrole as [p [Hp [Hpu Hpr]]].
      destruct (doctor_reports_spec s user Hdb Hrole) as [qs [Hqs Hmem]].
      pose proof Hshare as [d [a [Hd [Hdu _]]]].
      eexists. split.
      * rewrite (list_filtered_unfold s user pid qs u p Hdb Hqs)
          by assumption.
        cbv zeta. rewrite Hpr. simpl.
        rewrite (doctor_of_actor s user d Hdb Hd Hdu).
        replace (existsb _ (appointments s)) with true; [reflexivity|].
        symmetry. apply (shares_by_computation s user d pid); assumption.
      * intros x. rewrite filter_In, Z.eqb_eq, Hmem. split.
        -- tauto.
        -- intros [Hx E]. rewrite E. tauto.
  - (* filter refused *)
    intros Hno.
    destruct (report_queryset_total s user Hdb) as [qs Hqs].
    destruct (col_dec User.id pid (users s)) as [[u [Hu Hid]]|Hnou].
    2:{ exists HTTP_404_NOT_FOUND, "Patient not found". split; [|split].
        - unfold MedicalReportViewSet.list. rewrite Hqs. simpl.
          rewrite objects_get_absent by assumption. reflexivity.
        - right. reflexivity.
        - split; [intros _; left; exact Hnou | reflexivity]. }
    assert (Hnot404 : forall P : Prop, ~ P ->
              HTTP_403_FORBIDDEN = HTTP_404_NOT_FOUND <->
              (forall u, In u (users s) -> User.id u <> pid) \/ P).
    { intros P HP. split; [discriminate|].
      intros [H|H]; [exfalso; exact (H u Hu Hid) | contradiction]. }
    destruct (col_dec UserProfile.user (User.id user) (profiles s))
      as [[p [Hp Hpu]]|Hnop].
    2:{ exists HTTP_403_FORBIDDEN, "Unauthorized". split; [|split].
        - unfold MedicalReportViewSet.list. rewrite Hqs. simpl.
          rewrite (objects_get_found MUser User.id u)
            by (try apply Hdb; assumption).
          rewrite objects_get_absent by assumption. reflexivity.
        - left. reflexivity.
        - apply Hnot404. intros [[p [Hp [Hpu _]]] _]. exact (Hnop p Hp Hpu). }
    rewrite (list_filtered_unfold s user pid qs u p Hdb Hqs) by assumption.
    cbv zeta.
    destruct (String.eqb_spec (UserProfile.role p) "doctor") as [Er|Nr].
    + assert (Hrole : has_role s user "doctor") by (exists p; auto).
      destruct (col_dec Doctor.user (User.id user) (doctors s))
        as [[d [Hd Hdu]]|Hnod].
      * rewrite (doctor_of_actor s user d Hdb Hd Hdu).
        destruct (existsb _ (appointments s)) eqn:E.
        -- exfalso. apply Hno. split; [exists u; auto|]. right.
           split; [exact Hrole|].
           apply (shares_by_computation s user d pid); assumption.
        -- simpl. exists HTTP_403_FORBIDDEN, "No access to this patient".
           split; [reflexivity|]. split; [left; reflexivity|].
           apply Hnot404. intros [_ H]. apply H. exists d. auto.
      * rewrite objects_get_absent by assumption.
        exists HTTP_404_NOT_FOUND, "Doctor profile not found".
        split; [reflexivity|]. split; [right; reflexivity|].
        split; [|reflexivity]. intros _. right. split; [exact Hrole|].
        intros [d [Hd Hdu]]. exact (Hnod d Hd Hdu).
    + destruct (Z.eqb_spec (User.id user) pid) as [E|N].
      * exfalso. apply Hno. split; [exists u; auto|]. left.
        exists (UserProfile.role p). split; [exists p; auto|]. auto.
      * simpl. exists HTTP_403_FORBIDDEN, "Unauthorized".
        split; [reflexivity|]. split; [left; reflexivity|].
        apply Hnot404. intros [Hrole _]. apply Nr.
        apply (role_unique s user); [exact Hdb | exists p; auto | exact Hrole].
Qed.

Lemma report_visibility_witness :
  (* alice, the doctor of the visit of bob, lists the reports: the one of
     bob; with the filter on carol (3), whom she never saw, she gets 403 *)
  (exists qs,
     MedicalReportViewSet.list Ward.booked Ward.alice None
     = Ok (mkResponse HTTP_200_OK (ReportList qs)) /\
     forall r, In r qs <->
       In r (reports Ward.booked)
       /\ shares_appointment Ward.booked Ward.alice (MedicalReport.patient r))
  /\ MedicalReportViewSet.list Ward.booked Ward.alice None
     = Ok (mkResponse HTTP_200_OK (ReportList [Ward.report_bob])).
Proof.
  destruct (report_visibility Ward.booked Ward.alice 3 booked_db)
    as [H _].
  split; [|reflexivity].
  apply H. exists (UserProfile.mk 1 "doctor" None). simpl. auto.
Defined.


(** * Further properties of the views *)

(** ** Primary keys and appended rows *)

Lemma next_pk_above (ids : list Z) (x : Z) : In x ids -> x < next_pk ids.
Proof.
  unfold next_pk. induction ids as [|y ids IH]; intros Hx; [destruct Hx|].
  cbn [fold_right]. destruct Hx as [->|Hx]; [lia|]. specialize (IH Hx). lia.
Qed.

Lemma next_pk_fresh (ids : list Z) : ~ In (next_pk ids) ids.
Proof. intros H. apply next_pk_above in H. lia. Qed.

Lemma NoDup_snoc {A : Type} (l : list A) (x : A) :
  NoDup l -> ~ In x l -> NoDup (l ++ [x]).
Proof.
  intros Hl Hx. apply NoDup_app.
  - exact Hl.
  - apply NoDup_cons; [intros [] | apply NoDup_nil].
  - intros y Hy [<-|[]]. exact (Hx Hy).
Qed.

(** ** Every outcome of a booking *)

(** The four ways [book_appointment] ends on a store that meets the
    database constraints. *)
Lemma book_outcomes (s : Store) (user : User.t)
  (d : AppointmentViewSet.book_data) (now : Z) :
  db_constraints s ->
  let r := AppointmentViewSet.book_appointment s user d now in
  ((forall x, In x (doctors s) ->
      Doctor.id x <> AppointmentViewSet.doctor_id d) /\
   r = Ok (mkResponse HTTP_404_NOT_FOUND (Error "Doctor not found"), s))
  \/ (exists doc, In doc (doctors s) /\
        Doctor.id doc = AppointmentViewSet.doctor_id d /\
        let a := Appointment.mk
                   (next_pk (map Appointment.id (appointments s)))
                   (Doctor.id doc) (User.id user)
                   (AppointmentViewSet.appointment_date d)
                   (AppointmentViewSet.start_time d)
                   (AppointmentViewSet.end_time d)
                   (AppointmentViewSet.reason d) "scheduled" None now now in
        (r = Ok (mkResponse HTTP_400_BAD_REQUEST
                   (Error "Time slot already booked"), s)
         \/ r = Raise (IntegrityError MAppointment)
         \/ ((forall b, In b (appointments s) ->
                Appointment.key b <> Appointment.key a) /\
             r = Ok (mkResponse HTTP_201_CREATED (AppointmentData a),
                     set_appointments (appointments s ++ [a]) s)))).
Proof.
  intros Hdb r. subst r. unfold AppointmentViewSet.book_appointment.
  destruct (col_dec Doctor.id (AppointmentViewSet.doctor_id d) (doctors s))
    as [[doc [Hdoc Hid]]|Hno].
  - right. exists doc. split; [exact Hdoc|]. split; [exact Hid|].
    rewrite (objects_get_found MDoctor Doctor.id doc)
      by (try apply Hdb; assumption).
    cbv zeta. destruct (existsb _ (appointments s)); [left; reflexivity|].
    right. unfold Appointment_insert.
    destruct (existsb (Appointment.same_key _) (appointments s)) eqn:E;
      [left; reflexivity|].
    right. split; [|reflexivity].
    intros b Hb Hk. assert (Hex : existsb
      (Appointment.same_key
         (Appointment.mk (next_pk (map Appointment.id (appointments s)))
            (Doctor.id doc) (User.id user)
            (AppointmentViewSet.appointment_date d)
            (AppointmentViewSet.start_time d)
            (AppointmentViewSet.end_time d) (AppointmentViewSet.reason d)
            "scheduled" None now now)) (appointments s) = true).
    { apply existsb_exists. exists b. split; [exact Hb|].
      apply same_key_spec. symmetry. exact Hk. }
    rewrite Hex in E. discriminate.
  - left. split; [exact Hno|].
    rewrite objects_get_absent by assumption. reflexivity.
Qed.

(** Appending a row for a known doctor, with a fresh primary key and a free
    slot, keeps the database constraints. *)
Lemma append_keeps_constraints (s : Store) (a : Appointment.t) :
  db_constraints s ->
  Appointment.id a = next_pk (map Appointment.id (appointments s)) ->
  (forall b, In b (appointments s) ->
     Appointment.key b <> Appointment.key a) ->
  (exists doc, In doc (doctors s) /\ Doctor.id doc = Appointment.doctor a) ->
  db_constraints (set_appointments (appointments s ++ [a]) s).
Proof.
  intros [H1 H2 H3 H4 H5 H6 H7] Hid Hfree Hdoc.
  constructor; simpl; try assumption.
  - rewrite map_app. simpl. apply NoDup_snoc; [exact H5|].
    rewrite Hid. apply next_pk_fresh.
  - rewrite map_app. simpl. apply NoDup_snoc; [exact H6|].
    intros Hin. apply in_map_iff in Hin. destruct Hin as [b [Hk Hb]].
    exact (Hfree b Hb Hk).
  - intros b Hb. apply in_app_or in Hb. destruct Hb as [Hb|[<-|[]]].
    + apply H7. exact Hb.
    + exact Hdoc.
Qed.

(** X1.  A booking for a doctor id that no Doctor row has is answered 404
    'Doctor not found' and writes nothing, whatever else the request
    carries and whatever the table of appointments holds. *)
Theorem book_unknown_doctor (s : Store) (user : User.t)
  (d : AppointmentViewSet.book_data) (now : Z) :
  (forall x, In x (doctors s) ->
     Doctor.id x <> AppointmentViewSet.doctor_id d) ->
  AppointmentViewSet.book_appointment s user d now
  = Ok (mkResponse HTTP_404_NOT_FOUND (Error "Doctor not found"), s).
Proof.
  intros Hno. unfold AppointmentViewSet.book_appointment.
  rewrite objects_get_absent by assumption. reflexivity.
Qed.

Lemma book_unknown_doctor_witness :
  AppointmentViewSet.book_appointment Ward.booked Ward.carol
    (AppointmentViewSet.mkBook 77 Ward.jan10 Ward.t0900 Ward.t0930 "" None)
    2000
  = Ok (mkResponse HTTP_404_NOT_FOUND (Error "Doctor not found"),
        Ward.booked).
Proof.
  apply (book_unknown_doctor Ward.booked Ward.carol).
  simpl. intros x Hx.
  repeat (destruct Hx as [<-|Hx]; [simpl; lia|]). destruct Hx.
Defined.

(** X2.  Whatever a booking request is answered, the store it leaves meets
    the database constraints again, every row that was in the table of
    appointments is still there unchanged, and at most one row is added:
    a row with status 'scheduled', the requesting actor as patient, the
    requested doctor, date and start time, and a primary key above all
    others.  No other table is written. *)
Theorem book_keeps_constraints (s : Store) (user : User.t)
  (d : AppointmentViewSet.book_data) (now : Z) :
  db_constraints s ->
  let s' := store_after s
              (AppointmentViewSet.book_appointment s user d now) in
  db_constraints s' /\
  (s' = s \/
   exists a,
     s' = set_appointments (appointments s ++ [a]) s /\
     Appointment.status a = "scheduled" /\
     Appointment.patient a = User.id user /\
     Appointment.key a
     = (AppointmentViewSet.doctor_id d,
        AppointmentViewSet.appointment_date d,
        AppointmentViewSet.start_time d) /\
     forall b, In b (appointments s) -> Appointment.id b < Appointment.id a).
Proof.
  intros Hdb s'. subst s'.
  destruct (book_outcomes s user d now Hdb)
    as [[_ ->]|[doc [Hdoc [Hid [->|[->|[Hfree ->]]]]]]]; simpl;
    try (split; [exact Hdb | left; reflexivity]).
  split.
  - apply append_keeps_constraints; try assumption; [reflexivity|].
    exists doc. split; [exact Hdoc | reflexivity].
  - right. eexists. split; [reflexivity|]. simpl.
    repeat split; [unfold Appointment.key; simpl; congruence|].
    intros b Hb. apply next_pk_above. apply in_map. exact Hb.
Qed.

Lemma book_keeps_constraints_witness :
  db_constraints
    (store_after Ward.empty
       (AppointmentViewSet.book_appointment Ward.empty Ward.bob
          (Ward.slot None) 1000)).
Proof.
  apply (book_keeps_constraints Ward.empty Ward.bob (Ward.slot None) 1000
           empty_db).
Defined.

(** ** Every outcome of a cancel *)

(** A cancel either writes nothing or replaces one row of the table by the
    same row with status 'cancelled' and a new [updated_at]. *)
Lemma cancel_outcomes (s : Store) (user : User.t) (pk now : Z) :
  db_constraints s ->
  let r := AppointmentViewSet.cancel_appointment s user pk now in
  store_after s r = s
  \/ exists a, In a (appointments s) /\ Appointment.id a = pk /\
       Appointment.patient a = User.id user /\
       let a' := Appointment.set_updated_at now
                   (Appointment.set_status "cancelled" a) in
       r = Ok (mkResponse HTTP_200_OK (AppointmentData a'),
               set_appointments
                 (map (fun b => if Appointment.id b =? Appointment.id a
                                then a' else b) (appointments s)) s).
Proof.
  intros Hdb r. subst r.
  destruct (appointment_queryset_shape s user Hdb) as [g Hg].
  specialize (Hg (appointments s)). rewrite set_appointments_same in Hg.
  destruct (col_dec Appointment.id pk (appointments s))
    as [[a [Ha Hid]]|Hno].
  - subst pk.
    destruct (cancel_cases s user a now _ Hdb Ha Hg) as [Hout [Hdeny Hown]].
    set (qs := filter _ (appointments s)) in *.
    assert (Hdec : In a qs \/ ~ In a qs).
    { unfold qs. rewrite filter_In.
      destruct (g (Appointment.doctor a) (Appointment.patient a));
        [left; auto | right; intros [_ F]; discriminate]. }
    destruct Hdec as [Hin|Hnin]; [|left; rewrite (Hout Hnin); reflexivity].
    destruct (Z.eq_dec (User.id user) (Appointment.patient a)) as [E|N].
    + right. exists a. split; [exact Ha|]. split; [reflexivity|].
      split; [symmetry; exact E|]. exact (Hown Hin E).
    + left. rewrite (Hdeny Hin N). reflexivity.
  - left. unfold AppointmentViewSet.cancel_appointment. rewrite Hg.
    unfold get_object, objects_get. simpl.
    rewrite filter_filter_comm, filter_col_absent by assumption.
    reflexivity.
Qed.

(** X3.  Whoever asks, for whatever primary key: a cancel leaves a store
    that meets the database constraints, with the same rows in the same
    order as far as primary key, doctor, patient, date, times, reason,
    notes and creation time go, and with every other table as it was.  A
    cancel never adds, removes or re-assigns an appointment. *)
Theorem cancel_keeps_bookings (s : Store) (user : User.t) (pk now : Z) :
  db_constraints s ->
  let s' := store_after s
              (AppointmentViewSet.cancel_appointment s user pk now) in
  db_constraints s' /\
  map booking_columns (appointments s')
  = map booking_columns (appointments s) /\
  set_appointments (appointments s) s' = s.
Proof.
  intros Hdb s'. subst s'.
  destruct (cancel_outcomes s user pk now Hdb)
    as [->|[a [Ha [Hid [Hpat ->]]]]].
  - split; [exact Hdb|]. split; [reflexivity|]. apply set_appointments_same.
  - cbv zeta. simpl. split; [apply cancel_keeps_constraints; assumption|].
    split; [|destruct s; reflexivity].
    rewrite map_map. apply map_ext_in. intros b Hb.
    destruct (Z.eqb_spec (Appointment.id b) (Appointment.id a)) as [E|_];
      [|reflexivity].
    assert (b = a) as ->; [|reflexivity].
    apply (NoDup_map_inj _ Appointment.id (appointments s));
      [apply Hdb | assumption..].
Qed.

Lemma cancel_keeps_bookings_witness :
  map booking_columns
    (appointments
       (store_after Ward.booked
          (AppointmentViewSet.cancel_appointment Ward.booked Ward.bob 100
             2000)))
  = map booking_columns (appointments Ward.booked).
Proof.
  apply (cancel_keeps_bookings Ward.booked Ward.bob 100 2000 booked_db).
Defined.

(** The appointment list of an actor without a profile, or with the role
    'doctor' and no Doctor record, is empty whatever the table holds. *)
Lemma appointment_list_closed (s : Store) (user : User.t)
  (table : list Appointment.t) :
  db_constraints s ->
  ~ has_profile s user
  \/ (has_role s user "doctor" /\ ~ has_doctor_record s user) ->
  AppointmentViewSet.get_queryset (set_appointments table s) user = Ok [].
Proof.
  intros Hdb Hor. unfold AppointmentViewSet.get_queryset. simpl.
  destruct Hor as [Hno|[[p [Hp [Hu Hr]]] Hnod]].
  - rewrite objects_get_absent; [reflexivity|].
    intros p Hp E. apply Hno. exists p. auto.
  - rewrite (objects_get_found MUserProfile UserProfile.user p)
      by (try apply Hdb; assumption).
    simpl. rewrite Hr. simpl.
    rewrite no_doctor_of_actor by assumption. reflexivity.
Qed.

(** X4.  An actor without a profile, or with the role 'doctor' and no
    Doctor record, can book but can never cancel: every cancel of such an
    actor raises [Http404] (answered 404), for every primary key, and this
    stays so after any booking the actor makes, the booked appointment
    included. *)
Theorem unlisted_actor_cannot_cancel (s : Store) (user : User.t)
  (d : AppointmentViewSet.book_data) (pk now now' : Z) :
  db_constraints s ->
  ~ has_profile s user
  \/ (has_role s user "doctor" /\ ~ has_doctor_record s user) ->
  AppointmentViewSet.cancel_appointment s user pk now = Raise Http404
  /\ AppointmentViewSet.cancel_appointment
       (store_after s (AppointmentViewSet.book_appointment s user d now))
       user pk now'
     = Raise Http404.
Proof.
  intros Hdb Hor.
  assert (H : forall table,
            AppointmentViewSet.cancel_appointment (set_appointments table s)
              user pk now' = Raise Http404
            /\ AppointmentViewSet.cancel_appointment
                 (set_appointments table s) user pk now = Raise Http404).
  { intros table. unfold AppointmentViewSet.cancel_appointment.
    rewrite (appointment_list_closed s user table Hdb Hor).
    split; reflexivity. }
  split.
  - rewrite <- (set_appointments_same s). apply H.
  - destruct (book_outcomes s user d now Hdb)
      as [[_ ->]|[doc [Hdoc [Hid [->|[->|[Hfree ->]]]]]]]; simpl;
      first [apply H | rewrite <- (set_appointments_same s); apply H].
Qed.

Lemma unlisted_actor_cannot_cancel_witness :
  (* dave books the free slot and gets appointment 1; he cannot cancel it *)
  AppointmentViewSet.cancel_appointment
    (store_after Ward.empty
       (AppointmentViewSet.book_appointment Ward.empty Ward.dave
          (Ward.slot None) 1000))
    Ward.dave 1 2000
  = Raise Http404.
Proof.
  apply (unlisted_actor_cannot_cancel Ward.empty Ward.dave (Ward.slot None)
           1 1000 2000 empty_db).
  left. intros [p [Hp E]]. simpl in Hp.
  repeat (destruct Hp as [<-|Hp]; [simpl in E; lia|]). destruct Hp.
Defined.

(** X5.  Book, list, cancel.  When an actor whose role is not 'doctor' is
    answered 201 by a booking, the appointment of the answer is in the
    actor's appointment list on the new store, and the actor's cancel of it
    is answered 200 and leaves it with status 'cancelled'. *)
Theorem booked_then_listed_then_cancelled (s s' : Store) (user : User.t)
  (d : AppointmentViewSet.book_data) (now now' : Z) (role : string)
  (a : Appointment.t) :
  db_constraints s ->
  has_role s user role -> role <> "doctor" ->
  AppointmentViewSet.book_appointment s user d now
  = Ok (mkResponse HTTP_201_CREATED (AppointmentData a), s') ->
  (exists qs, AppointmentViewSet.get_queryset s' user = Ok qs /\ In a qs)
  /\ exists a' s'',
       AppointmentViewSet.cancel_appointment s' user (Appointment.id a) now'
       = Ok (mkResponse HTTP_200_OK (AppointmentData a'), s'')
       /\ Appointment.status a' = "cancelled"
       /\ booking_columns a' = booking_columns a
       /\ In a' (appointments s'').
Proof.
  intros Hdb [p [Hp [Hu Hr]]] Hne Hbook.
  destruct (book_outcomes s user d now Hdb)
    as [[_ E]|[doc [Hdoc [Hid [E|[E|[Hfree E]]]]]]];
    rewrite E in Hbook; try discriminate.
  injection Hbook as <- <-. cbv zeta in Hfree.
  set (a := Appointment.mk _ _ _ _ _ _ _ _ _ _ _) in *.
  set (s' := set_appointments (appointments s ++ [a]) s).
  assert (Hdb' : db_constraints s').
  { apply append_keeps_constraints; try assumption; [reflexivity|].
    exists doc. split; [exact Hdoc | reflexivity]. }
  assert (Ha : In a (appointments s')).
  { unfold s'. simpl. apply in_or_app. right. left. reflexivity. }
  assert (Hqs : AppointmentViewSet.get_queryset s' user
                = Ok (filter (fun b => Appointment.patient b =? User.id user)
                        (appointments s'))).
  { unfold AppointmentViewSet.get_queryset. unfold s' at 1. simpl.
    rewrite (objects_get_found MUserProfile UserProfile.user p)
      by (try apply Hdb; assumption).
    simpl. rewrite Hr. apply String.eqb_neq in Hne. rewrite Hne.
    reflexivity. }
  assert (Hin : In a (filter (fun b => Appointment.patient b =? User.id user)
                        (appointments s'))).
  { apply filter_In. split; [exact Ha|]. apply Z.eqb_refl. }
  split; [eexists; split; [exact Hqs | exact Hin]|].
  destruct (cancel_cases s' user a now' _ Hdb' Ha Hqs) as [_ [_ Hown]].
  do 2 eexists. split; [apply (Hown Hin); reflexivity|].
  split; [reflexivity|]. split; [reflexivity|].
  simpl. apply in_map_iff. exists a. rewrite Z.eqb_refl. auto.
Qed.

Lemma booked_then_listed_then_cancelled_witness :
  exists a' s'',
    AppointmentViewSet.cancel_appointment
      (Ward.with_appointments
         [Appointment.mk 1 10 2 Ward.jan10 Ward.t0900 Ward.t0930 "checkup"
            "scheduled" None 1000 1000])
      Ward.bob 1 2000
    = Ok (mkResponse HTTP_200_OK (AppointmentData a'), s'')
    /\ Appointment.status a' = "cancelled".
Proof.
  destruct (booked_then_listed_then_cancelled Ward.empty
              (Ward.with_appointments
                 [Appointment.mk 1 10 2 Ward.jan10 Ward.t0900 Ward.t0930
                    "checkup" "scheduled" None 1000 1000])
              Ward.bob (Ward.slot None) 1000 2000 "patient"
              (Appointment.mk 1 10 2 Ward.jan10 Ward.t0900 Ward.t0930
                 "checkup" "scheduled" None 1000 1000) empty_db)
    as [_ [a' [s'' [H1 [H2 _]]]]].
  - exists (UserProfile.mk 2 "patient" None). simpl. auto.
  - discriminate.
  - reflexivity.
  - exists a', s''. split; [exact H1 | exact H2].
Defined.

(** ** Appointments and the access to reports *)

Lemma patients_of_links (d : Z) (table : list Appointment.t) :
  map Appointment.patient
    (filter (fun a => Appointment.doctor a =? d) table)
  = map snd (filter (fun p => fst p =? d) (map care_link table)).
Proof.
  induction table as [|a table IH]; [reflexivity|]. simpl.
  destruct (Appointment.doctor a =? d); simpl; rewrite IH; reflexivity.
Qed.

Lemma shared_of_links (d pid : Z) (table : list Appointment.t) :
  existsb (fun a => (Appointment.doctor a =? d)
                    && (Appointment.patient a =? pid)) table
  = existsb (fun p => (fst p =? d) && (snd p =? pid)) (map care_link table).
Proof.
  induction table as [|a table IH]; [reflexivity|]. simpl.
  rewrite IH. reflexivity.
Qed.

(** The report views read the table of appointments through [care_link]
    alone. *)
Lemma report_views_read_links (s : Store) (table : list Appointment.t)
  (viewer : User.t) (patient_id : option Z) :
  map care_link table = map care_link (appointments s) ->
  MedicalReportViewSet.get_queryset (set_appointments table s) viewer
  = MedicalReportViewSet.get_queryset s viewer
  /\ MedicalReportViewSet.list (set_appointments table s) viewer patient_id
     = MedicalReportViewSet.list s viewer patient_id.
Proof.
  intros Hl.
  assert (Hqs : MedicalReportViewSet.get_queryset (set_appointments table s)
                  viewer
                = MedicalReportViewSet.get_queryset s viewer).
  { unfold MedicalReportViewSet.get_queryset. simpl.
    destruct (objects_get MUserProfile _ (profiles s)) as [p|e];
      [|reflexivity].
    destruct (String.eqb (UserProfile.role p) "doctor"); [|reflexivity].
    destruct (objects_get MDoctor _ (doctors s)) as [d|e]; [|reflexivity].
    simpl. rewrite !patients_of_links, Hl. reflexivity. }
  split; [exact Hqs|].
  unfold MedicalReportViewSet.list. rewrite Hqs. simpl.
  destruct (MedicalReportViewSet.get_queryset s viewer) as [qs|e];
    [|reflexivity].
  simpl. destruct patient_id as [pid|]; [|reflexivity].
  destruct (objects_get MUser _ (users s)) as [u|e]; [|reflexivity].
  destruct (objects_get MUserProfile _ (profiles s)) as [p|e];
    [|reflexivity].
  destruct (String.eqb (UserProfile.role p) "doctor"); [|reflexivity].
  destruct (objects_get MDoctor _ (doctors s)) as [d|e]; [|reflexivity].
  rewrite !shared_of_links, Hl. reflexivity.
Qed.

(** X6.  A cancel, by whomever and of whatever appointment, changes no
    answer of the report list: for every viewer and every [patient_id]
    filter, the list on the store the cancel leaves is the list on the
    store before.  In particular a doctor keeps the access to the reports
    of a patient whose only appointment was cancelled. *)
Theorem cancel_keeps_report_access (s : Store) (user viewer : User.t)
  (pk now : Z) (patient_id : option Z) :
  db_constraints s ->
  MedicalReportViewSet.list
    (store_after s (AppointmentViewSet.cancel_appointment s user pk now))
    viewer patient_id
  = MedicalReportViewSet.list s viewer patient_id.
Proof.
  intros Hdb.
  destruct (cancel_outcomes s user pk now Hdb)
    as [->|[a [Ha [Hid [Hpat ->]]]]]; [reflexivity|].
  cbv zeta. simpl. apply report_views_read_links.
  rewrite map_map. apply map_ext_in. intros b Hb.
  destruct (Z.eqb_spec (Appointment.id b) (Appointment.id a)) as [E|_];
    [|reflexivity].
  assert (b = a) as ->; [|reflexivity].
  apply (NoDup_map_inj _ Appointment.id (appointments s));
    [apply Hdb | assumption..].
Qed.

Lemma cancel_keeps_report_access_witness :
  (* alice still gets the report of bob after bob cancelled his visit *)
  MedicalReportViewSet.list
    (store_after Ward.booked
       (AppointmentViewSet.cancel_appointment Ward.booked Ward.bob 100 2000))
    Ward.alice (Some 2)
  = Ok (mkResponse HTTP_200_OK (ReportList [Ward.report_bob])).
Proof.
  rewrite (cancel_keeps_report_access Ward.booked Ward.bob Ward.alice 100
             2000 (Some 2) booked_db).
  reflexivity.
Defined.

(** X7.  A booking opens the patient's reports to the booked doctor.  When
    a booking is answered 201, the user of the booked Doctor record, if
    their role is 'doctor', finds in their report list on the new store
    every report whose patient is the requesting actor, and their
    [patient_id] filter on the actor is answered 200 with exactly the
    reports of the actor. *)
Theorem booking_opens_reports (s s' : Store) (user viewer : User.t)
  (d : AppointmentViewSet.book_data) (now : Z) (a : Appointment.t)
  (doc : Doctor.t) :
  db_constraints s ->
  In user (users s) ->
  AppointmentViewSet.book_appointment s user d now
  = Ok (mkResponse HTTP_201_CREATED (AppointmentData a), s') ->
  In doc (doctors s) ->
  Doctor.id doc = AppointmentViewSet.doctor_id d ->
  Doctor.user doc = User.id viewer ->
  has_role s viewer "doctor" ->
  (exists qs,
     MedicalReportViewSet.get_queryset s' viewer = Ok qs /\
     forall r, In r (reports s) -> MedicalReport.patient r = User.id user ->
               In r qs)
  /\ exists l,
       MedicalReportViewSet.list s' viewer (Some (User.id user))
       = Ok (mkResponse HTTP_200_OK (ReportList l)) /\
       forall r, In r l <->
         In r (reports s) /\ MedicalReport.patient r = User.id user.
Proof.
  intros Hdb Huser Hbook Hdoc Hid Hviewer Hrole.
  destruct (book_outcomes s user d now Hdb)
    as [[_ E]|[doc' [Hdoc' [Hid' [E|[E|[Hfree E]]]]]]];
    rewrite E in Hbook; try discriminate.
  injection Hbook as <- <-. cbv zeta in Hfree.
  assert (doc' = doc) as ->.
  { apply (NoDup_map_inj _ Doctor.id (doctors s));
      [apply Hdb | assumption | assumption | congruence]. }
  set (a := Appointment.mk _ _ _ _ _ _ _ _ _ _ _) in *.
  set (s' := set_appointments (appointments s ++ [a]) s).
  assert (Hdb' : db_constraints s').
  { apply append_keeps_constraints; try assumption; [reflexivity|].
    exists doc. split; [exact Hdoc | reflexivity]. }
  assert (Hrole' : has_role s' viewer "doctor") by exact Hrole.
  assert (Hshare : shares_appointment s' viewer (User.id user)).
  { exists doc, a. unfold s'. simpl. repeat split; try assumption.
    apply in_or_app. right. left. reflexivity. }
  destruct (doctor_reports_spec s' viewer Hdb' Hrole') as [qs [Hqs Hmem]].
  split.
  - exists qs. split; [exact Hqs|]. intros r Hr Hp. apply Hmem.
    split; [exact Hr|]. rewrite Hp. exact Hshare.
  - destruct Hrole as [p [Hp [Hpu Hpr]]].
    eexists. split.
    + rewrite (list_filtered_unfold s' viewer (User.id user) qs user p Hdb'
                 Hqs) by (try assumption; reflexivity).
      cbv zeta. rewrite Hpr, String.eqb_refl.
      rewrite (doctor_of_actor s' viewer doc Hdb') by assumption.
      replace (existsb _ (appointments s')) with true; [reflexivity|].
      symmetry.
      apply (shares_by_computation s' viewer doc (User.id user));
        assumption.
    + intros r. rewrite filter_In, Z.eqb_eq, Hmem. split.
      * intros [[Hr _] Ep]. auto.
      * intros [Hr Ep]. rewrite Ep. auto.
Qed.

Lemma booking_opens_reports_witness :
  (* carol books with Dr. 10 on a free day: alice now gets her report *)
  exists l,
    MedicalReportViewSet.list
      (store_after Ward.empty
         (AppointmentViewSet.book_appointment Ward.empty Ward.carol
            (Ward.slot None) 1000))
      Ward.alice (Some 3)
    = Ok (mkResponse HTTP_200_OK (ReportList l)) /\
    forall r, In r l <->
      In r (reports Ward.empty) /\ MedicalReport.patient r = 3.
Proof.
  destruct (booking_opens_reports Ward.empty
              (store_after Ward.empty
                 (AppointmentViewSet.book_appointment Ward.empty Ward.carol
                    (Ward.slot None) 1000))
              Ward.carol Ward.alice (Ward.slot None) 1000
              (Appointment.mk 1 10 3 Ward.jan10 Ward.t0900 Ward.t0930
                 "checkup" "scheduled" None 1000 1000)
              Ward.dr_alice empty_db)
    as [_ H]; try reflexivity.
  - simpl. auto.
  - simpl. auto.
  - exists (UserProfile.mk 1 "doctor" None). simpl. auto.
  - exact H.
Defined.

(** ** Availability slots: listing, creation, update *)

(** X8.  The availability list of an actor holds exactly the slots whose
    doctor is the actor's Doctor record, whatever the actor's role; an
    actor without a Doctor record gets the empty list, and nothing is
    raised. *)
Theorem availability_list_by_record (s : Store) (user : User.t) :
  db_constraints s ->
  (forall d, In d (doctors s) -> Doctor.user d = User.id user ->
     lists_exactly (DoctorAvailabilityViewSet.get_queryset s user)
       (availability s)
       (fun a => DoctorAvailability.doctor a = Doctor.id d))
  /\ (~ has_doctor_record s user ->
      DoctorAvailabilityViewSet.get_queryset s user = Ok []).
Proof.
  intros Hdb. unfold DoctorAvailabilityViewSet.get_queryset. split.
  - intros d Hd Hu. rewrite (doctor_of_actor s user d Hdb Hd Hu). simpl.
    apply lists_exactly_filter. intros a. apply Z.eqb_eq.
  - intros Hno. rewrite (no_doctor_of_actor s user Hno). reflexivity.
Qed.

Lemma availability_list_by_record_witness :
  lists_exactly
    (DoctorAvailabilityViewSet.get_queryset
       (set_availability
          [DoctorAvailability.mk 1 10 "MON" Ward.t0900 Ward.t0930 true;
           DoctorAvailability.mk 2 11 "TUE" Ward.t0900 Ward.t0930 true]
          Ward.booked) Ward.alice)
    [DoctorAvailability.mk 1 10 "MON" Ward.t0900 Ward.t0930 true;
     DoctorAvailability.mk 2 11 "TUE" Ward.t0900 Ward.t0930 true]
    (fun a => DoctorAvailability.doctor a = 10).
Proof.
  assert (Hdb : db_constraints
                  (set_availability
                     [DoctorAvailability.mk 1 10 "MON" Ward.t0900 Ward.t0930
                        true;
                      DoctorAvailability.mk 2 11 "TUE" Ward.t0900 Ward.t0930
                        true] Ward.booked)) by db_solve.
  destruct (availability_list_by_record _ Ward.alice Hdb) as [H _].
  apply (H Ward.dr_alice); simpl; auto.
Defined.

Lemma filter_snoc {A : Type} (f : A -> bool) (l : list A) (x : A) :
  filter f (l ++ [x]) = filter f l ++ (if f x then [x] else []).
Proof.
  induction l as [|y l IH]; simpl; [destruct (f x); reflexivity|].
  rewrite IH. destruct (f y); reflexivity.
Qed.

(** The rows an accepted [perform_create] can leave. *)
Lemma slot_created (s s' : Store) (user : User.t) (d : Doctor.t)
  (vd : DoctorAvailabilityViewSet.validated_data) :
  db_constraints s -> In d (doctors s) -> Doctor.user d = User.id user ->
  DoctorAvailabilityViewSet.perform_create s user vd = Ok s' ->
  let row :=
    DoctorAvailability.mk
      (next_pk (map DoctorAvailability.id (availability s))) (Doctor.id d)
      (DoctorAvailabilityViewSet.day_of_week vd)
      (DoctorAvailabilityViewSet.start_time vd)
      (DoctorAvailabilityViewSet.end_time vd)
      (DoctorAvailabilityViewSet.is_active vd) in
  s' = set_availability (availability s ++ [row]) s.
Proof.
  intros Hdb Hd Hu Hc row.
  unfold DoctorAvailabilityViewSet.perform_create in Hc.
  rewrite (doctor_of_actor s user d Hdb Hd Hu) in Hc. simpl in Hc.
  unfold DoctorAvailabilityViewSet.save_new, DoctorAvailability_insert in Hc.
  fold row in Hc.
  destruct (existsb (DoctorAvailability.same_key row) (availability s));
    simpl in Hc; [discriminate|].
  injection Hc as <-. reflexivity.
Qed.

(** X9.  Create, then list.  A slot that [perform_create] accepts is the
    last row of the availability table, carries a primary key that no
    other slot has, and is in the actor's availability list on the new
    store; the availability list of every actor with another Doctor record
    or with none is what it was. *)
Theorem slot_created_then_listed (s s' : Store) (user : User.t)
  (d : Doctor.t) (vd : DoctorAvailabilityViewSet.validated_data) :
  db_constraints s -> availability_pk s ->
  In d (doctors s) -> Doctor.user d = User.id user ->
  DoctorAvailabilityViewSet.perform_create s user vd = Ok s' ->
  exists row,
    availability s' = availability s ++ [row] /\
    DoctorAvailability.doctor row = Doctor.id d /\
    availability_pk s' /\
    (exists qs, DoctorAvailabilityViewSet.get_queryset s' user = Ok qs /\
                In row qs) /\
    forall other, User.id other <> User.id user ->
      DoctorAvailabilityViewSet.get_queryset s' other
      = DoctorAvailabilityViewSet.get_queryset s other.
Proof.
  intros Hdb Hpk Hd Hu Hc.
  pose proof (slot_created s s' user d vd Hdb Hd Hu Hc) as Hs'.
  cbv zeta in Hs'. set (row := DoctorAvailability.mk _ _ _ _ _ _) in Hs'.
  exists row. subst s'. simpl. split; [reflexivity|].
  split; [reflexivity|]. split; [|split].
  - unfold availability_pk. simpl. rewrite map_app. simpl.
    apply NoDup_snoc; [exact Hpk | apply next_pk_fresh].
  - unfold DoctorAvailabilityViewSet.get_queryset. simpl.
    rewrite (doctor_of_actor s user d Hdb Hd Hu). simpl.
    eexists. split; [reflexivity|]. apply filter_In. split.
    + apply in_or_app. right. left. reflexivity.
    + apply Z.eqb_refl.
  - intros other Hother. unfold DoctorAvailabilityViewSet.get_queryset.
    simpl.
    destruct (col_dec Doctor.user (User.id other) (doctors s))
      as [[d' [Hd' Hu']]|Hno].
    + rewrite (doctor_of_actor s other d' Hdb Hd' Hu'). simpl.
      rewrite filter_snoc. simpl.
      destruct (Z.eqb_spec (Doctor.id d) (Doctor.id d')) as [E|_];
        [|rewrite app_nil_r; reflexivity].
      exfalso. apply Hother.
      assert (d = d') as ->; [|congruence].
      apply (NoDup_map_inj _ Doctor.id (doctors s));
        [apply Hdb | assumption..].
    + rewrite objects_get_absent by assumption. reflexivity.
Qed.

Lemma slot_created_then_listed_witness :
  exists row,
    availability
      (set_availability
         [DoctorAvailability.mk 1 10 "MON" Ward.t0900 Ward.t0930 true]
         Ward.booked)
    = availability Ward.booked ++ [row] /\
    DoctorAvailability.doctor row = 10.
Proof.
  destruct (slot_created_then_listed Ward.booked
              (set_availability
                 [DoctorAvailability.mk 1 10 "MON" Ward.t0900 Ward.t0930
                    true] Ward.booked)
              Ward.alice Ward.dr_alice
              (DoctorAvailabilityViewSet.mkData 11 "MON" Ward.t0900
                 Ward.t0930 true) booked_db)
    as [row [H1 [H2 _]]].
  - apply NoDup_nil.
  - simpl. auto.
  - reflexivity.
  - reflexivity.
  - exists row. split; [exact H1 | exact H2].
Defined.

(** X10.  No doctor rewrites the slot of another.  An update aimed at a
    slot whose doctor is not the actor's Doctor record, or sent by an actor
    without a Doctor record, raises [Http404] before anything is written.
    An update of an own slot that succeeds leaves every slot with the
    primary key and the doctor it had. *)
Theorem slot_update_own_only (s : Store) (user : User.t)
  (slot : DoctorAvailability.t)
  (vd : DoctorAvailabilityViewSet.validated_data) :
  db_constraints s -> availability_pk s -> In slot (availability s) ->
  (forall d, In d (doctors s) -> Doctor.user d = User.id user ->
     DoctorAvailability.doctor slot <> Doctor.id d ->
     DoctorAvailabilityViewSet.update s user (DoctorAvailability.id slot) vd
     = Raise Http404)
  /\ (~ has_doctor_record s user ->
      DoctorAvailabilityViewSet.update s user (DoctorAvailability.id slot) vd
      = Raise Http404)
  /\ (forall s',
        DoctorAvailabilityViewSet.update s user (DoctorAvailability.id slot)
          vd = Ok s' ->
        map (fun a => (DoctorAvailability.id a, DoctorAvailability.doctor a))
          (availability s')
        = map (fun a => (DoctorAvailability.id a,
                         DoctorAvailability.doctor a)) (availability s)).
Proof.
  intros Hdb Hpk Hslot.
  assert (Hget : forall f,
            objects_get MDoctorAvailability
              (fun r => DoctorAvailability.id r =? DoctorAvailability.id slot)
              (filter f (availability s))
            = if f slot then Ok slot
              else Raise (DoesNotExist MDoctorAvailability)).
  { intros f. unfold objects_get.
    rewrite filter_filter_comm, filter_col_unique by assumption.
    simpl. destruct (f slot); reflexivity. }
  unfold DoctorAvailabilityViewSet.update,
    DoctorAvailabilityViewSet.get_queryset, get_object.
  split; [|split].
  - intros d Hd Hu Hne. rewrite (doctor_of_actor s user d Hdb Hd Hu).
    simpl. rewrite Hget. apply Z.eqb_neq in Hne. rewrite Hne. reflexivity.
  - intros Hno. rewrite (no_doctor_of_actor s user Hno). reflexivity.
  - intros s' Hup.
    destruct (col_dec Doctor.user (User.id user) (doctors s))
      as [[d [Hd Hu]]|Hno].
    2:{ rewrite objects_get_absent in Hup by assumption. discriminate. }
    rewrite (doctor_of_actor s user d Hdb Hd Hu) in Hup. simpl in Hup.
    rewrite Hget in Hup.
    destruct (Z.eqb_spec (DoctorAvailability.doctor slot) (Doctor.id d))
      as [Eown|_]; [|discriminate].
    simpl in Hup. unfold DoctorAvailabilityViewSet.perform_update in Hup.
    rewrite (doctor_of_actor s user d Hdb Hd Hu) in Hup. simpl in Hup.
    unfold DoctorAvailabilityViewSet.save_instance,
      DoctorAvailability_update in Hup.
    destruct (existsb _ (availability s)); simpl in Hup; [discriminate|].
    injection Hup as <-. simpl. rewrite map_map. apply map_ext_in.
    intros b Hb. simpl.
    destruct (Z.eqb_spec (DoctorAvailability.id b)
                (DoctorAvailability.id slot)) as [E|_]; [|reflexivity].
    simpl. assert (b = slot) as ->; [|congruence].
    apply (NoDup_map_inj _ DoctorAvailability.id (availability s));
      assumption.
Qed.

Lemma slot_update_own_only_witness :
  (* frank, Dr. 11, aims at the slot of Dr. 10 *)
  DoctorAvailabilityViewSet.update
    (set_availability
       [DoctorAvailability.mk 1 10 "MON" Ward.t0900 Ward.t0930 true]
       Ward.booked)
    Ward.frank 1
    (DoctorAvailabilityViewSet.mkData 11 "MON" Ward.t0900 Ward.t0930 false)
  = Raise Http404.
Proof.
  assert (Hdb : db_constraints
                  (set_availability
                     [DoctorAvailability.mk 1 10 "MON" Ward.t0900 Ward.t0930
                        true] Ward.booked)) by db_solve.
  destruct (slot_update_own_only _ Ward.frank
              (DoctorAvailability.mk 1 10 "MON" Ward.t0900 Ward.t0930 true)
              (DoctorAvailabilityViewSet.mkData 11 "MON" Ward.t0900
                 Ward.t0930 false) Hdb)
    as [H _].
  - unfold availability_pk. simpl. nodup_solve.
  - simpl. auto.
  - apply (H Ward.dr_frank); simpl; auto. lia.
Defined.

(** ** The doctor views *)

(** [get_object] on a filter of the Doctor table. *)
Lemma get_doctor_filtered (s : Store) (f : Doctor.t -> bool) (d : Doctor.t) :
  db_constraints s -> In d (doctors s) ->
  get_object MDoctor Doctor.id (Ok (filter f (doctors s))) (Doctor.id d)
  = if f d then Ok d else Raise Http404.
Proof.
  intros Hdb Hd. unfold get_object, objects_get. simpl.
  rewrite filter_filter_comm, filter_col_unique
    by (try apply Hdb; assumption).
  simpl. destruct (f d); reflexivity.
Qed.

(** X11.  Whose slots an actor may read.  For a Doctor row [d],
    [available_slots] answers 200 with exactly the active slots of [d]
    when the actor has the role 'doctor' and [d] is their own record, or
    has another role and [d] is available; it raises [Http404] when the
    actor is a doctor and [d] is the record of another, when the actor has
    another role and [d] is not available, and when the actor has no
    profile. *)
Theorem available_slots_scope (s : Store) (user : User.t) (d : Doctor.t) :
  db_constraints s -> In d (doctors s) ->
  let granted :=
    exists l,
      DoctorViewSet.available_slots s user (Doctor.id d)
      = Ok (mkReply HTTP_200_OK (SlotList l)) /\
      forall a, In a l <->
        In a (availability s) /\
        DoctorAvailability.doctor a = Doctor.id d /\
        DoctorAvailability.is_active a = true in
  let hidden :=
    DoctorViewSet.available_slots s user (Doctor.id d) = Raise Http404 in
  (has_role s user "doctor" ->
     (Doctor.user d = User.id user -> granted)
     /\ (Doctor.user d <> User.id user -> hidden))
  /\ (forall r, has_role s user r -> r <> "doctor" ->
        (Doctor.is_available d = true -> granted)
        /\ (Doctor.is_available d = false -> hidden))
  /\ (~ has_profile s user -> hidden).
Proof.
  intros Hdb Hd granted hidden.
  assert (Hgrant : forall f, f d = true ->
            DoctorViewSet.get_queryset s user = Ok (filter f (doctors s)) ->
            granted).
  { intros f Hf Hqs. unfold granted, DoctorViewSet.available_slots.
    rewrite Hqs, (get_doctor_filtered s f d Hdb Hd), Hf. simpl.
    eexists. split; [reflexivity|]. intros a.
    rewrite filter_In, andb_true_iff, Z.eqb_eq.
    destruct (DoctorAvailability.is_active a); simpl; intuition congruence. }
  assert (Hhide : forall f, f d = false ->
            DoctorViewSet.get_queryset s user = Ok (filter f (doctors s)) ->
            hidden).
  { intros f Hf Hqs. unfold hidden, DoctorViewSet.available_slots.
    rewrite Hqs, (get_doctor_filtered s f d Hdb Hd), Hf. reflexivity. }
  split; [|split].
  - intros Hrole.
    destruct (profile_of_actor s user _ Hdb Hrole) as [p [Hr Hget]].
    assert (Hqs : DoctorViewSet.get_queryset s user
                  = Ok (filter (fun x => Doctor.user x =? User.id user)
                          (doctors s))).
    { unfold DoctorViewSet.get_queryset. rewrite Hget. simpl.
      rewrite Hr. reflexivity. }
    split; intros H.
    + apply (Hgrant _ (proj2 (Z.eqb_eq _ _) H) Hqs).
    + apply (Hhide _ (proj2 (Z.eqb_neq _ _) H) Hqs).
  - intros r Hrole Hne.
    destruct (profile_of_actor s user _ Hdb Hrole) as [p [Hr Hget]].
    assert (Hqs : DoctorViewSet.get_queryset s user
                  = Ok (filter (fun x => Bool.eqb (Doctor.is_available x) true)
                          (doctors s))).
    { unfold DoctorViewSet.get_queryset. rewrite Hget. simpl.
      rewrite Hr. apply String.eqb_neq in Hne. rewrite Hne. reflexivity. }
    split; intros H.
    + apply (Hgrant _ (f_equal (fun b => Bool.eqb b true) H) Hqs).
    + apply (Hhide _ (f_equal (fun b => Bool.eqb b true) H) Hqs).
  - intros Hno. unfold hidden, DoctorViewSet.available_slots,
      DoctorViewSet.get_queryset.
    rewrite objects_get_absent; [reflexivity|].
    intros p Hp E. apply Hno. exists p. auto.
Qed.

Lemma available_slots_scope_witness :
  (* bob, a patient, asks for the slots of Dr. 11, who is not available *)
  DoctorViewSet.available_slots Ward.booked Ward.bob 11 = Raise Http404.
Proof.
  destruct (available_slots_scope Ward.booked Ward.bob Ward.dr_frank
              booked_db) as [_ [H _]].
  - simpl. auto.
  - destruct (H "patient") as [_ Hh].
    + exists (UserProfile.mk 2 "patient" None). simpl. auto.
    + discriminate.
    + apply Hh. reflexivity.
Defined.

(** X12.  [my_profile] goes by the Doctor record alone: an actor with a
    Doctor record is answered 200 with that record whatever the profile
    says, and for such an actor with the role 'doctor' the doctor list
    holds that one record and no other; an actor without a Doctor record
    is answered 404 'Doctor profile not found'. *)
Theorem my_profile_is_own_record (s : Store) (user : User.t) :
  db_constraints s ->
  (forall d, In d (doctors s) -> Doctor.user d = User.id user ->
     DoctorViewSet.my_profile s user
     = Ok (mkReply HTTP_200_OK (DoctorData d))
     /\ (has_role s user "doctor" ->
         DoctorViewSet.get_queryset s user = Ok [d]))
  /\ (~ has_doctor_record s user ->
      DoctorViewSet.my_profile s user
      = Ok (mkReply HTTP_404_NOT_FOUND
              (ErrorData "Doctor profile not found"))).
Proof.
  intros Hdb. unfold DoctorViewSet.my_profile. split.
  - intros d Hd Hu. rewrite (doctor_of_actor s user d Hdb Hd Hu).
    split; [reflexivity|]. intros Hrole.
    destruct (profile_of_actor s user _ Hdb Hrole) as [p [Hr Hget]].
    unfold DoctorViewSet.get_queryset. rewrite Hget. simpl. rewrite Hr.
    simpl. rewrite <- Hu.
    rewrite (filter_col_unique Doctor.user d) by (try apply Hdb; assumption).
    reflexivity.
  - intros Hno. rewrite (no_doctor_of_actor s user Hno). reflexivity.
Qed.

Lemma my_profile_is_own_record_witness :
  DoctorViewSet.my_profile Ward.booked Ward.alice
  = Ok (mkReply HTTP_200_OK (DoctorData Ward.dr_alice))
  /\ DoctorViewSet.get_queryset Ward.booked Ward.alice = Ok [Ward.dr_alice].
Proof.
  destruct (my_profile_is_own_record Ward.booked Ward.alice booked_db)
    as [H _].
  destruct (H Ward.dr_alice) as [H1 H2]; [simpl; auto | reflexivity|].
  split; [exact H1|]. apply H2.
  exists (UserProfile.mk 1 "doctor" None). simpl. auto.
Defined.

(** ** Listings never raise *)

(** X13.  On a store that meets the database constraints the four listing
    querysets return for every actor, and return rows of their table only:
    no listing raises, whatever profile or Doctor record the actor has or
    lacks. *)
Theorem listings_never_raise (s : Store) (user : User.t) :
  db_constraints s ->
  (exists qs, DoctorViewSet.get_queryset s user = Ok qs
              /\ incl qs (doctors s))
  /\ (exists qs, DoctorAvailabilityViewSet.get_queryset s user = Ok qs
                 /\ incl qs (availability s))
  /\ (exists qs, AppointmentViewSet.get_queryset s user = Ok qs
                 /\ incl qs (appointments s))
  /\ (exists qs, MedicalReportViewSet.get_queryset s user = Ok qs
                 /\ incl qs (reports s)).
Proof.
  intros Hdb.
  assert (Hf : forall (A : Type) (f : A -> bool) (l : list A),
            incl (filter f l) l).
  { intros A f l x Hx. apply filter_In in Hx. apply Hx. }
  assert (Hnil : forall (A : Type) (l : list A), incl [] l).
  { intros A l x []. }
  unfold DoctorViewSet.get_queryset, DoctorAvailabilityViewSet.get_queryset,
    AppointmentViewSet.get_queryset, MedicalReportViewSet.get_queryset.
  destruct (col_dec UserProfile.user (User.id user) (profiles s))
    as [[p [Hp Hu]]|Hnop];
    destruct (col_dec Doctor.user (User.id user) (doctors s))
      as [[d [Hd Hdu]]|Hnod];
    try rewrite (objects_get_found MUserProfile UserProfile.user p)
      by (try apply Hdb; assumption);
    try rewrite (objects_get_absent MUserProfile UserProfile.user)
      by assumption;
    try rewrite (doctor_of_actor s user d Hdb Hd Hdu);
    try rewrite (objects_get_absent MDoctor Doctor.user) by assumption;
    simpl; try destruct (String.eqb (UserProfile.role p) "doctor"); simpl;
    try rewrite (doctor_of_actor s user d Hdb Hd Hdu);
    try rewrite (objects_get_absent MDoctor Doctor.user) by assumption;
    simpl; repeat split; eexists; (split; [reflexivity|]);
    first [apply Hf | apply Hnil].
Qed.

Lemma listings_never_raise_witness :
  exists qs, AppointmentViewSet.get_queryset Ward.booked Ward.erin = Ok qs
             /\ incl qs (appointments Ward.booked).
Proof.
  destruct (listings_never_raise Ward.booked Ward.erin booked_db)
    as [_ [_ [H _]]].
  exact H.
Defined.

(** ** permissions.py *)

(** X14.  For a method outside [SAFE_METHODS], [IsDoctorOrReadOnly] grants
    exactly the actors whose profile role is 'doctor' and
    [IsPatientOrReadOnly] exactly those whose role is 'patient'; no actor
    is granted by both, and an actor without a profile is refused by both
    without an exception.  For GET, HEAD and OPTIONS both grant everybody,
    without reading the profile table. *)
Theorem role_permissions (s : Store) (method : string) (user : User.t) :
  db_constraints s ->
  (method_in method SAFE_METHODS = false ->
   (IsDoctorOrReadOnly.has_object_permission s method user = Ok true
    <-> has_role s user "doctor")
   /\ (IsPatientOrReadOnly.has_object_permission s method user = Ok true
       <-> has_role s user "patient")
   /\ ~ (IsDoctorOrReadOnly.has_object_permission s method user = Ok true
         /\ IsPatientOrReadOnly.has_object_permission s method user
            = Ok true)
   /\ (~ has_profile s user ->
       IsDoctorOrReadOnly.has_object_permission s method user = Ok false
       /\ IsPatientOrReadOnly.has_object_permission s method user
          = Ok false))
  /\ (forall ps, method_in method SAFE_METHODS = true ->
        IsDoctorOrReadOnly.has_object_permission (set_profiles ps s)
          method user = Ok true
        /\ IsPatientOrReadOnly.has_object_permission (set_profiles ps s)
             method user = Ok true).
Proof.
  intros Hdb.
  unfold IsDoctorOrReadOnly.has_object_permission,
    IsPatientOrReadOnly.has_object_permission.
  split.
  2:{ intros ps ->. split; reflexivity. }
  intros ->.
  destruct (col_dec UserProfile.user (User.id user) (profiles s))
    as [[p [Hp Hu]]|Hnop].
  - rewrite (objects_get_found MUserProfile UserProfile.user p)
      by (try apply Hdb; assumption).
    simpl.
    assert (Hrole : has_role s user (UserProfile.role p))
      by (exists p; auto).
    assert (Hiff : forall r,
              Ok (String.eqb (UserProfile.role p) r) = Ok true
              <-> has_role s user r).
    { intros r. split.
      - intros E. injection E as E. apply String.eqb_eq in E.
        rewrite <- E. exact Hrole.
      - intros H. rewrite (role_unique s user _ _ Hdb Hrole H).
        rewrite String.eqb_refl. reflexivity. }
    split; [apply Hiff|]. split; [apply Hiff|]. split.
    + intros [E1 E2]. apply Hiff in E1. apply Hiff in E2.
      pose proof (role_unique s user _ _ Hdb E1 E2). discriminate.
    + intros Hno. exfalso. apply Hno. exists p. auto.
  - rewrite objects_get_absent by assumption. simpl.
    assert (Hnone : forall r, ~ has_role s user r).
    { intros r [p [Hp [Hu _]]]. exact (Hnop p Hp Hu). }
    repeat split; try discriminate; try (intros H; exfalso).
    + exact (Hnone _ H).
    + exact (Hnone _ H).
    + destruct H; discriminate.
Qed.

Lemma role_permissions_witness :
  (* a POST by alice, a doctor *)
  IsDoctorOrReadOnly.has_object_permission Ward.booked "POST" Ward.alice
  = Ok true
  /\ IsPatientOrReadOnly.has_object_permission Ward.booked "POST" Ward.alice
     <> Ok true.
Proof.
  destruct (role_permissions Ward.booked "POST" Ward.alice booked_db)
    as [H _].
  destruct (H eq_refl) as [H1 [_ [H3 _]]].
  assert (E : IsDoctorOrReadOnly.has_object_permission Ward.booked "POST"
                Ward.alice = Ok true).
  { apply H1. exists (UserProfile.mk 1 "doctor" None). simpl. auto. }
  split; [exact E|]. intros E2. apply H3. split; assumption.
Defined.

(** ** Login *)

Lemma has_role_snoc (s : Store) (p : UserProfile.t) (u : User.t)
  (r : string) :
  has_role (set_profiles (profiles s ++ [p]) s) u r
  <-> has_role s u r
      \/ (UserProfile.user p = User.id u /\ UserProfile.role p = r).
Proof.
  unfold has_role. simpl. split.
  - intros [q [Hq [Hu Hr]]]. apply in_app_or in Hq.
    destruct Hq as [Hq|[<-|[]]]; [left; exists q; auto | right; auto].
  - intros [[q [Hq [Hu Hr]]]|[Hu Hr]].
    + exists q. split; [apply in_or_app; left; exact Hq | auto].
    + exists p. split; [apply in_or_app; right; left; reflexivity | auto].
Qed.

(** What a login of an authenticated user does to the store. *)
Lemma login_outcomes (s : Store) (user : User.t) :
  db_constraints s ->
  (exists r, has_role s user r /\
     SignUpView.login s (Some user)
     = Ok (mkReply HTTP_200_OK
             (LoginData (User.id user) (User.username user) r), s))
  \/ (~ has_profile s user /\
      SignUpView.login s (Some user)
      = Ok (mkReply HTTP_200_OK
              (LoginData (User.id user) (User.username user) "patient"),
            set_profiles
              (profiles s ++ [UserProfile.mk (User.id user) "patient"
                                (Some "")]) s)).
Proof.
  intros Hdb. unfold SignUpView.login.
  destruct (col_dec UserProfile.user (User.id user) (profiles s))
    as [[p [Hp Hu]]|Hnop].
  - left. exists (UserProfile.role p). split; [exists p; auto|].
    rewrite (objects_get_found MUserProfile UserProfile.user p)
      by (try apply Hdb; assumption).
    reflexivity.
  - right. split; [intros [p [Hp Hu]]; exact (Hnop p Hp Hu)|].
    rewrite objects_get_absent by assumption. reflexivity.
Qed.

Lemma login_keeps_constraints (s : Store) (user : User.t) :
  db_constraints s -> ~ has_profile s user ->
  db_constraints
    (set_profiles
       (profiles s ++ [UserProfile.mk (User.id user) "patient" (Some "")])
       s).
Proof.
  intros [H1 H2 H3 H4 H5 H6 H7] Hno. constructor; simpl; try assumption.
  rewrite map_app. simpl. apply NoDup_snoc; [exact H2|].
  intros Hin. apply in_map_iff in Hin. destruct Hin as [p [Hu Hp]].
  apply Hno. exists p. auto.
Qed.

(** X15.  A login of an authenticated user is answered 200 with the user's
    role and leaves the user with exactly that role in a store that meets
    the database constraints.  A user who had a profile keeps it and the
    store is not written; a user who had none gets the role 'patient'.
    The role of every other user is what it was, and a second login is
    answered the same and writes nothing. *)
Theorem login_ensures_profile (s : Store) (user : User.t) :
  db_constraints s ->
  exists r s',
    SignUpView.login s (Some user)
    = Ok (mkReply HTTP_200_OK
            (LoginData (User.id user) (User.username user) r), s') /\
    db_constraints s' /\
    has_role s' user r /\
    (has_profile s user -> s' = s) /\
    (~ has_profile s user -> r = "patient") /\
    (forall u r', User.id u <> User.id user ->
       (has_role s' u r' <-> has_role s u r')) /\
    SignUpView.login s' (Some user)
    = Ok (mkReply HTTP_200_OK
            (LoginData (User.id user) (User.username user) r), s').
Proof.
  intros Hdb.
  destruct (login_outcomes s user Hdb) as [[r [Hrole E]]|[Hno E]].
  - exists r, s. split; [exact E|]. split; [exact Hdb|].
    split; [exact Hrole|]. split; [reflexivity|]. split.
    + intros H. exfalso. apply H. destruct Hrole as [p [Hp [Hu _]]].
      exists p. auto.
    + split; [reflexivity | exact E].
  - eexists. eexists. split; [exact E|].
    pose proof (login_keeps_constraints s user Hdb Hno) as Hdb'.
    set (s' := set_profiles _ s) in *.
    assert (Hrole' : has_role s' user "patient").
    { apply has_role_snoc. right. split; reflexivity. }
    split; [exact Hdb'|]. split; [exact Hrole'|]. split; [contradiction|].
    split; [reflexivity|]. split.
    + intros u r' Hne. unfold s'. rewrite has_role_snoc. simpl. split.
      * intros [H|[Hu _]]; [exact H | congruence].
      * intros H. left. exact H.
    + destruct (login_outcomes s' user Hdb') as [[r [Hr E']]|[Hno' _]].
      * rewrite (role_unique s' user _ _ Hdb' Hrole' Hr). exact E'.
      * exfalso. apply Hno'. destruct Hrole' as [p [Hp [Hu _]]].
        exists p. auto.
Qed.

Lemma login_ensures_profile_witness :
  (* dave had no profile *)
  exists r s',
    SignUpView.login Ward.walk_in (Some Ward.dave)
    = Ok (mkReply HTTP_200_OK (LoginData 4 "dave" r), s')
    /\ has_role s' Ward.dave r.
Proof.
  destruct (login_ensures_profile Ward.walk_in Ward.dave walk_in_db)
    as [r [s' [H1 [_ [H2 _]]]]].
  exists r, s'. split; [exact H1 | exact H2].
Defined.

(** X16.  Login repairs a missing profile.  An actor without a profile
    cannot cancel an appointment they booked (404); after one login the
    actor's appointment list holds exactly the appointments whose patient
    they are, and the cancel of such an appointment is answered 200. *)
Theorem login_then_cancel (s : Store) (user : User.t) (a : Appointment.t)
  (now : Z) :
  db_constraints s -> ~ has_profile s user ->
  In a (appointments s) -> Appointment.patient a = User.id user ->
  AppointmentViewSet.cancel_appointment s user (Appointment.id a) now
  = Raise Http404
  /\ exists reply s',
       SignUpView.login s (Some user) = Ok (reply, s') /\
       lists_exactly (AppointmentViewSet.get_queryset s' user)
         (appointments s) (fun b => Appointment.patient b = User.id user) /\
       status_of (AppointmentViewSet.cancel_appointment s' user
                    (Appointment.id a) now) = HTTP_200_OK.
Proof.
  intros Hdb Hno Ha Hpat. split.
  - unfold AppointmentViewSet.cancel_appointment.
    rewrite <- (set_appointments_same s) at 1.
    rewrite (appointment_list_closed s user _ Hdb (or_introl Hno)).
    reflexivity.
  - destruct (login_outcomes s user Hdb) as [[r [[p [Hp [Hu _]]] _]]|[_ E]];
      [exfalso; apply Hno; exists p; auto|].
    do 2 eexists. split; [exact E|].
    pose proof (login_keeps_constraints s user Hdb Hno) as Hdb'.
    set (s' := set_profiles _ s) in *.
    assert (Hqs : AppointmentViewSet.get_queryset s' user
                  = Ok (filter (fun b => Appointment.patient b =? User.id user)
                          (appointments s))).
    { unfold AppointmentViewSet.get_queryset.
      rewrite (objects_get_found MUserProfile UserProfile.user
                 (UserProfile.mk (User.id user) "patient" (Some "")));
        [reflexivity | apply Hdb' | | reflexivity].
      unfold s'. simpl. apply in_or_app. right. left. reflexivity. }
    split.
    + rewrite Hqs. apply lists_exactly_filter. intros b. apply Z.eqb_eq.
    + destruct (cancel_cases s' user a now _ Hdb' Ha Hqs) as [_ [_ Hown]].
      rewrite Hown; [reflexivity | | symmetry; exact Hpat].
      apply filter_In. split; [exact Ha|]. apply Z.eqb_eq. exact Hpat.
Qed.

Lemma login_then_cancel_witness :
  AppointmentViewSet.cancel_appointment Ward.walk_in Ward.dave 100 2000
  = Raise Http404
  /\ exists reply s',
       SignUpView.login Ward.walk_in (Some Ward.dave) = Ok (reply, s') /\
       status_of (AppointmentViewSet.cancel_appointment s' Ward.dave 100
                    2000) = HTTP_200_OK.
Proof.
  destruct (login_then_cancel Ward.walk_in Ward.dave
              (Ward.visit_of 4 "scheduled") 2000 walk_in_db)
    as [H1 [reply [s' [H2 [_ H3]]]]].
  - intros [p [Hp E]]. simpl in Hp.
    repeat (destruct Hp as [<-|Hp]; [simpl in E; lia|]). destruct Hp.
  - simpl. auto.
  - reflexivity.
  - split; [exact H1|]. exists reply, s'. split; [exact H2 | exact H3].
Defined.

(** X17.  [current_user] answers 401 to an anonymous request and 404 to a
    user without a profile; to a user who has just logged in it answers
    200 with a profile of that user whose role is the one the login
    reported. *)
Theorem current_user_after_login (s s' : Store) (user : User.t)
  (reply : Reply) :
  db_constraints s ->
  SignUpView.login s (Some user) = Ok (reply, s') ->
  SignUpView.current_user s None
  = Ok (mkReply HTTP_401_UNAUTHORIZED (ErrorData "Not authenticated"))
  /\ (~ has_profile s user ->
      SignUpView.current_user s (Some user)
      = Ok (mkReply HTTP_404_NOT_FOUND (ErrorData "UserProfile not found")))
  /\ exists p,
       SignUpView.current_user s' (Some user)
       = Ok (mkReply HTTP_200_OK (ProfileData p)) /\
       UserProfile.user p = User.id user /\
       reply_data reply
       = LoginData (User.id user) (User.username user) (UserProfile.role p).
Proof.
  intros Hdb Hlogin. split; [reflexivity|]. split.
  - intros Hno. unfold SignUpView.current_user.
    rewrite objects_get_absent; [reflexivity|].
    intros p Hp E. apply Hno. exists p. auto.
  - unfold SignUpView.current_user.
    destruct (login_outcomes s user Hdb) as [[r [[p [Hp [Hu Hr]]] E]]|[Hno E]];
      rewrite E in Hlogin; injection Hlogin as <- <-.
    + exists p.
      rewrite (objects_get_found MUserProfile UserProfile.user p)
        by (try apply Hdb; assumption).
      rewrite Hr. auto.
    + pose proof (login_keeps_constraints s user Hdb Hno) as Hdb'.
      exists (UserProfile.mk (User.id user) "patient" (Some "")).
      rewrite (objects_get_found MUserProfile UserProfile.user
                 (UserProfile.mk (User.id user) "patient" (Some "")));
        [auto | apply Hdb' | | reflexivity].
      simpl. apply in_or_app. right. left. reflexivity.
Qed.

Lemma current_user_after_login_witness :
  exists p,
    SignUpView.current_user
      (set_profiles (Ward.the_profiles ++ [UserProfile.mk 4 "patient" (Some "")])
         Ward.walk_in) (Some Ward.dave)
    = Ok (mkReply HTTP_200_OK (ProfileData p)) /\
    UserProfile.user p = 4.
Proof.
  destruct (current_user_after_login Ward.walk_in
              (set_profiles
                 (Ward.the_profiles ++ [UserProfile.mk 4 "patient" (Some "")])
                 Ward.walk_in)
              Ward.dave (mkReply HTTP_200_OK (LoginData 4 "dave" "patient"))
              walk_in_db eq_refl)
    as [_ [_ [p [H1 [H2 _]]]]].
  exists p. split; [exact H1 | exact H2].
Defined.

(** ** Any sequence of bookings, cancels and logins *)

Lemma ledger_kept_refl (s : Store) : ledger_kept s s.
Proof. intros a Ha. exists a. auto. Qed.

Lemma ledger_kept_trans (s1 s2 s3 : Store) :
  ledger_kept s1 s2 -> ledger_kept s2 s3 -> ledger_kept s1 s3.
Proof.
  intros H12 H23 a Ha.
  destruct (H12 a Ha) as [a2 [Ha2 [Hc2 Hs2]]].
  destruct (H23 a2 Ha2) as [a3 [Ha3 [Hc3 Hs3]]].
  exists a3. split; [exact Ha3|]. split; [congruence | auto].
Qed.

(** One request keeps the constraints and the ledger. *)
Lemma handle_keeps (s : Store) (q : request) :
  db_constraints s ->
  db_constraints (handle s q) /\ ledger_kept s (handle s q).
Proof.
  intros Hdb. destruct q as [user d now|user pk now|[user|]]; cbn [handle].
  - destruct (book_outcomes s user d now Hdb)
      as [[_ ->]|[doc [Hdoc [Hid [->|[->|[Hfree ->]]]]]]]; simpl;
      try (split; [exact Hdb | apply ledger_kept_refl]).
    split.
    + apply append_keeps_constraints; try assumption; [reflexivity|].
      exists doc. split; [exact Hdoc | reflexivity].
    + intros a Ha. exists a. split; [|auto].
      simpl. apply in_or_app. left. exact Ha.
  - destruct (cancel_outcomes s user pk now Hdb)
      as [E|[a [Ha [Hid [Hpat ->]]]]].
    + assert (Hw : written s
                     (AppointmentViewSet.cancel_appointment s user pk now)
                   = s).
      { revert E. unfold store_after, written.
        destruct (AppointmentViewSet.cancel_appointment s user pk now)
          as [[? ?]|?]; auto. }
      rewrite Hw. split; [exact Hdb | apply ledger_kept_refl].
    + cbv zeta. simpl. split; [apply cancel_keeps_constraints; assumption|].
      intros b Hb. simpl.
      exists (if Appointment.id b =? Appointment.id a
              then Appointment.set_updated_at now
                     (Appointment.set_status "cancelled" a)
              else b).
      split; [apply in_map_iff; exists b; auto|].
      destruct (Z.eqb_spec (Appointment.id b) (Appointment.id a)) as [E|_];
        [|auto].
      assert (b = a) as ->; [|auto].
      apply (NoDup_map_inj _ Appointment.id (appointments s));
        [apply Hdb | assumption..].
  - destruct (login_outcomes s user Hdb) as [[r [_ ->]]|[Hno ->]]; simpl.
    + split; [exact Hdb | apply ledger_kept_refl].
    + split; [apply login_keeps_constraints; assumption|].
      intros a Ha. exists a. auto.
  - split; [exact Hdb | apply ledger_kept_refl].
Qed.

(** X18.  Whatever sequence of booking, cancel and login requests is
    served, by whatever actors: the store meets the database constraints
    after it (so no doctor ever has two appointments, scheduled or not, at
    one date and start time), and no appointment is ever lost, re-keyed or
    moved to another doctor, patient, date or time, and none that was
    cancelled is ever anything else again. *)
Theorem ledger_is_append_only (s : Store) (qs : list request) :
  db_constraints s ->
  db_constraints (serve s qs) /\ ledger_kept s (serve s qs).
Proof.
  revert s. unfold serve.
  induction qs as [|q qs IH]; intros s Hdb; simpl.
  - split; [exact Hdb | apply ledger_kept_refl].
  - destruct (handle_keeps s q Hdb) as [Hdb' Hk].
    destruct (IH (handle s q) Hdb') as [Hdb'' Hk'].
    split; [exact Hdb''|]. exact (ledger_kept_trans _ _ _ Hk Hk').
Qed.

Lemma ledger_is_append_only_witness :
  (* carol is refused the slot of bob and cannot cancel his visit; bob
     cancels; carol asks again; dave logs in and books another day *)
  ledger_kept Ward.booked
    (serve Ward.booked
       [Book Ward.carol (Ward.slot None) 1500;
        Cancel Ward.carol 100 1600;
        Cancel Ward.bob 100 2000;
        Book Ward.carol (Ward.slot None) 2500;
        Login (Some Ward.dave);
        Book Ward.dave
          (AppointmentViewSet.mkBook 10 (Ward.jan10 + 1) Ward.t0900
             Ward.t0930 "" None) 3000]).
Proof.
  apply (ledger_is_append_only Ward.booked). exact booked_db.
Defined.

(** ** Who sees a new report *)

Lemma set_reports_constraints (s : Store) (l : list MedicalReport.t) :
  db_constraints s -> db_constraints (set_reports l s).
Proof. intros [H1 H2 H3 H4 H5 H6 H7]. constructor; assumption. Qed.

(** X19.  A report that [perform_create] writes becomes the last row of
    the report table.  On the new store an actor with a role other than
    'doctor' finds it in their report list exactly when they are its
    patient, and an actor with the role 'doctor' exactly when they share
    an appointment with its patient: having written the report gives its
    author no access to it. *)
Theorem report_created_then_listed (s : Store) (user : User.t)
  (vd : MedicalReportViewSet.validated_data) :
  db_constraints s ->
  exists row s',
    MedicalReportViewSet.perform_create s user vd = Ok s' /\
    reports s' = reports s ++ [row] /\
    MedicalReport.patient row = MedicalReportViewSet.patient vd /\
    MedicalReport.content row = MedicalReportViewSet.content vd /\
    (forall viewer r, has_role s viewer r -> r <> "doctor" ->
       exists qs,
         MedicalReportViewSet.get_queryset s' viewer = Ok qs /\
         (In row qs <-> User.id viewer = MedicalReportViewSet.patient vd)) /\
    (forall viewer, has_role s viewer "doctor" ->
       exists qs,
         MedicalReportViewSet.get_queryset s' viewer = Ok qs /\
         (In row qs <->
          shares_appointment s viewer (MedicalReportViewSet.patient vd))).
Proof.
  intros Hdb.
  assert (Hmade : exists doctor,
            MedicalReportViewSet.perform_create s user vd
            = Ok (set_reports
                    (reports s
                     ++ [MedicalReport.mk
                           (next_pk (map MedicalReport.id (reports s)))
                           doctor (MedicalReportViewSet.patient vd)
                           (MedicalReportViewSet.content vd)]) s)).
  { unfold MedicalReportViewSet.perform_create.
    destruct (col_dec Doctor.user (User.id user) (doctors s))
      as [[d [Hd Hu]]|Hno].
    - rewrite (doctor_of_actor s user d Hdb Hd Hu). eexists. reflexivity.
    - rewrite objects_get_absent by assumption. eexists. reflexivity. }
  destruct Hmade as [doctor Hmade].
  set (row := MedicalReport.mk _ doctor _ _) in Hmade.
  set (s' := set_reports (reports s ++ [row]) s) in Hmade.
  assert (Hdb' : db_constraints s') by (apply set_reports_constraints, Hdb).
  assert (Hlast : In row (reports s')).
  { unfold s'. simpl. apply in_or_app. right. left. reflexivity. }
  exists row, s'. split; [exact Hmade|]. split; [reflexivity|].
  split; [reflexivity|]. split; [reflexivity|]. split.
  - intros viewer r Hrole Hne. eexists. split.
    + apply (patient_reports_spec s' viewer r Hdb' Hrole Hne).
    + rewrite filter_In, Z.eqb_eq. simpl. split.
      * intros [_ E]. symmetry. exact E.
      * intros E. split; [exact Hlast | symmetry; exact E].
  - intros viewer Hrole.
    destruct (doctor_reports_spec s' viewer Hdb' Hrole) as [qs [Hqs Hmem]].
    exists qs. split; [exact Hqs|]. rewrite Hmem. simpl. split.
    + intros [_ H]. exact H.
    + intros H. split; [exact Hlast | exact H].
Qed.

Lemma report_created_then_listed_witness :
  (* frank, a doctor who never saw carol, writes a report about her *)
  exists row s',
    MedicalReportViewSet.perform_create Ward.booked Ward.frank
      (MedicalReportViewSet.mkData None 3 "note") = Ok s' /\
    reports s' = reports Ward.booked ++ [row] /\
    MedicalReport.patient row = 3.
Proof.
  destruct (report_created_then_listed Ward.booked Ward.frank
              (MedicalReportViewSet.mkData None 3 "note") booked_db)
    as [row [s' [H1 [H2 [H3 _]]]]].
  exists row, s'. split; [exact H1|]. split; [exact H2 | exact H3].
Defined.
